(** * gdm::mat4 — a shallow embedding of [src/gdm/src/mat4.h]

    The header stores a matrix as [float m[4][4]] (row-major, row vectors,
    translation in row 3).  The header is embedded twice.

    At the top level scalars are the real numbers [R]: the statements there
    are about the algebra that the code performs, read over exact
    arithmetic, with no rounding.

    In [Module F32] scalars are IEEE binary32 numbers (the standard
    library's [spec_float] at precision 24 and maximal exponent 128, every
    operation rounded to nearest, ties to even): the same lines of the
    header with the arithmetic of [float].  It is the model in which the
    statements that exact arithmetic makes true are tested on the code
    itself.

    Layout of the file: the collaborating vector types, the matrix type with
    its constructors and member functions, the free functions of the header
    in source order, the binary32 embedding, the reference definitions that
    the statements compare the code with, and then the lemmas. *)

From Stdlib Require Import Reals Lra List Arith Lia Bool Permutation.
From Stdlib Require Import ZArith Floats.SpecFloat.
Import ListNotations.

Open Scope R_scope.

(** ** Scalars *)

(** [float]; exact arithmetic stands in for it. *)
Abbreviation float := R (only parsing).

(** The comparison [x <= y] of two floats, as a boolean. *)
Definition fle (x y : float) : bool :=
  if Rle_dec x y then true else false.

(** ** vec3 and vec4 (vec3.h, vec4.h) *)

(** Modelled from the spec: [vec3.h] is not part of the sources at hand; the
    spec (section 6) lists what the matrix code consumes of it: a component
    constructor, the accessors x, y, z, addition, subtraction, multiplication
    by a scalar, [dot] and [cross]. *)
Record vec3 : Type := mkvec3 { x3 : float; y3 : float; z3 : float }.

(** Modelled from the spec: [vec4.h] is not part of the sources at hand; the
    spec (section 6) gives it a component constructor and the accessors
    x, y, z, w. *)
Record vec4 : Type := mkvec4 { x4 : float; y4 : float; z4 : float; w4 : float }.

(** Modelled from the spec: [operator+(vec3, vec3)], component-wise. *)
Definition vec3_add (p q : vec3) : vec3 :=
  mkvec3 (x3 p + x3 q) (y3 p + y3 q) (z3 p + z3 q).

(** Modelled from the spec: [operator-(vec3, vec3)], component-wise. *)
Definition vec3_sub (p q : vec3) : vec3 :=
  mkvec3 (x3 p - x3 q) (y3 p - y3 q) (z3 p - z3 q).

(** Modelled from the spec: [operator*(vec3, float)] and [operator*=], every
    component times the scalar. *)
Definition vec3_scale (p : vec3) (k : float) : vec3 :=
  mkvec3 (x3 p * k) (y3 p * k) (z3 p * k).

(** Modelled from the spec: [dot(vec3, vec3)], the sum of the products of the
    components. *)
Definition dot (p q : vec3) : float :=
  x3 p * x3 q + y3 p * y3 q + z3 p * z3 q.

(** Modelled from the spec: [cross(vec3, vec3)], the right-handed cross
    product. *)
Definition cross (p q : vec3) : vec3 :=
  mkvec3 (y3 p * z3 q - z3 p * y3 q)
         (z3 p * x3 q - x3 p * z3 q)
         (x3 p * y3 q - y3 p * x3 q).

Declare Scope vec3_scope.
Delimit Scope vec3_scope with v3.
Bind Scope vec3_scope with vec3.
Infix "+" := vec3_add : vec3_scope.
Infix "-" := vec3_sub : vec3_scope.
Infix "*" := vec3_scale : vec3_scope.

(** ** struct mat4 *)

(** [float m[4][4]]: field [mIJ] is [m[I][J]], row [I], column [J]. *)
Record mat4 : Type := mkmat4 {
  m00 : float; m01 : float; m02 : float; m03 : float;
  m10 : float; m11 : float; m12 : float; m13 : float;
  m20 : float; m21 : float; m22 : float; m23 : float;
  m30 : float; m31 : float; m32 : float; m33 : float
}.

(** [mat4(float m00, ..., float m33)].
    Modelled from the spec: the body of the constructor is not part of the
    sources at hand; its declaration documents the sixteen arguments as the
    rows in order, and the spec (4.1) says the same. *)
Definition mat4_of_scalars
  (a00 a01 a02 a03 a10 a11 a12 a13
   a20 a21 a22 a23 a30 a31 a32 a33 : float) : mat4 :=
  mkmat4 a00 a01 a02 a03 a10 a11 a12 a13 a20 a21 a22 a23 a30 a31 a32 a33.

(** [mat4(float scalar)].
    Modelled from the spec: the body is not part of the sources at hand; the
    declaration says "scalar by diagonal" and the spec (4.1) says the four
    diagonal entries are the scalar and the rest is zero. *)
Definition mat4_of_scalar (scalar : float) : mat4 :=
  mkmat4 scalar 0 0 0
         0 scalar 0 0
         0 0 scalar 0
         0 0 0 scalar.

(** [mat4()].
    Modelled from the spec: the body is not part of the sources at hand; the
    declaration says "Constructs an identity matrix" and so does the spec
    (4.1). *)
Definition mat4_identity : mat4 :=
  mkmat4 1 0 0 0
         0 1 0 0
         0 0 1 0
         0 0 0 1.

(** [mat4(vec4 row1, vec4 row2, vec4 row3, vec4 row4)].
    Modelled from the spec: the body is not part of the sources at hand; the
    declaration names the arguments as the rows (x, y, z basis vectors and
    the translation) and the spec (4.1) says each argument becomes one row. *)
Definition mat4_of_rows (row1 row2 row3 row4 : vec4) : mat4 :=
  mkmat4 (x4 row1) (y4 row1) (z4 row1) (w4 row1)
         (x4 row2) (y4 row2) (z4 row2) (w4 row2)
         (x4 row3) (y4 row3) (z4 row3) (w4 row3)
         (x4 row4) (y4 row4) (z4 row4) (w4 row4).

(** [operator()(int i, int j)], i.e. [m[i][j]].  The source does no bounds
    check and an index outside 0..3 is undefined behaviour there; the model
    reads 0 at such an index, and no statement below relies on that value. *)
Definition get (mat : mat4) (i j : nat) : float :=
  match i, j with
  | 0, 0 => m00 mat | 0, 1 => m01 mat | 0, 2 => m02 mat | 0, 3 => m03 mat
  | 1, 0 => m10 mat | 1, 1 => m11 mat | 1, 2 => m12 mat | 1, 3 => m13 mat
  | 2, 0 => m20 mat | 2, 1 => m21 mat | 2, 2 => m22 mat | 2, 3 => m23 mat
  | 3, 0 => m30 mat | 3, 1 => m31 mat | 3, 2 => m32 mat | 3, 3 => m33 mat
  | _, _ => 0%R
  end%nat.

(** [mat4::determinant()]. *)
Definition determinant (mat : mat4) : float :=
  let a0 := get mat 0 0 * get mat 1 1 - get mat 0 1 * get mat 1 0 in
  let a1 := get mat 0 0 * get mat 1 2 - get mat 0 2 * get mat 1 0 in
  let a2 := get mat 0 0 * get mat 1 3 - get mat 0 3 * get mat 1 0 in
  let a3 := get mat 0 1 * get mat 1 2 - get mat 0 2 * get mat 1 1 in
  let a4 := get mat 0 1 * get mat 1 3 - get mat 0 3 * get mat 1 1 in
  let a5 := get mat 0 2 * get mat 1 3 - get mat 0 3 * get mat 1 2 in
  let b0 := get mat 2 0 * get mat 3 1 - get mat 2 1 * get mat 3 0 in
  let b1 := get mat 2 0 * get mat 3 2 - get mat 2 2 * get mat 3 0 in
  let b2 := get mat 2 0 * get mat 3 3 - get mat 2 3 * get mat 3 0 in
  let b3 := get mat 2 1 * get mat 3 2 - get mat 2 2 * get mat 3 1 in
  let b4 := get mat 2 1 * get mat 3 3 - get mat 2 3 * get mat 3 1 in
  let b5 := get mat 2 2 * get mat 3 3 - get mat 2 3 * get mat 3 2 in
  a0 * b5 - a1 * b4 + a2 * b3 + a3 * b2 - a4 * b1 + a5 * b0.

(** [mat4::GetRow(int index)]. *)
Definition GetRow (mat : mat4) (index : nat) : vec4 :=
  mkvec4 (get mat index 0) (get mat index 1) (get mat index 2) (get mat index 3).

(** ** operator*(mat4, mat4) *)

(** [p[k] = v] on the local buffer [float p[16]]. *)
Fixpoint store (p : list float) (k : nat) (v : float) : list float :=
  match p, k with
  | [], _ => []
  | _ :: rest, O => v :: rest
  | h :: rest, S k' => h :: store rest k' v
  end.

(** [p[k]]. *)
Definition load (p : list float) (k : nat) : float := nth k p 0.

(** The innermost loop: [sum = 0; for i in 0..3: sum += mat1(row,i) * mat2(i,col)]. *)
Definition mul_sum (mat1 mat2 : mat4) (row col : nat) : float :=
  fold_left (fun sum i => sum + get mat1 row i * get mat2 i col) (seq 0 4) 0.

(** The two outer loops, [col] outside and [row] inside, writing
    [p[col + row * 4]]; [p0] is the content of the buffer before the loops. *)
Definition mul_fill (p0 : list float) (mat1 mat2 : mat4) : list float :=
  fold_left
    (fun p col =>
       fold_left
         (fun p row => store p (col + row * 4) (mul_sum mat1 mat2 row col))
         (seq 0 4) p)
    (seq 0 4) p0.

(** The whole operator, from a given initial content of the buffer. *)
Definition mul_from (p0 : list float) (mat1 mat2 : mat4) : mat4 :=
  let p := mul_fill p0 mat1 mat2 in
  mat4_of_scalars (load p 0) (load p 1) (load p 2) (load p 3)
                  (load p 4) (load p 5) (load p 6) (load p 7)
                  (load p 8) (load p 9) (load p 10) (load p 11)
                  (load p 12) (load p 13) (load p 14) (load p 15).

(** [operator*(const mat4&, const mat4&)].  The source leaves [p]
    uninitialised; the loops write all sixteen cells before any is read
    ([mul_from_any_buffer] below), so the model starts from zeros. *)
Definition mul (mat1 mat2 : mat4) : mat4 :=
  mul_from (repeat 0 16) mat1 mat2.

(** [operator*(const mat4&, const vec4&)]. *)
Definition mul_vec (mat : mat4) (vec : vec4) : vec4 :=
  mkvec4
    (get mat 0 0 * x4 vec + get mat 0 1 * y4 vec + get mat 0 2 * z4 vec + get mat 0 3 * w4 vec)
    (get mat 1 0 * x4 vec + get mat 1 1 * y4 vec + get mat 1 2 * z4 vec + get mat 1 3 * w4 vec)
    (get mat 2 0 * x4 vec + get mat 2 1 * y4 vec + get mat 2 2 * z4 vec + get mat 2 3 * w4 vec)
    (get mat 3 0 * x4 vec + get mat 3 1 * y4 vec + get mat 3 2 * z4 vec + get mat 3 3 * w4 vec).

(** ** canBeInverse and inverse *)

Section Tolerance.

(** Modelled from the spec: [TOLERANCE] is declared in [mathbase.h], which
    is not part of the sources at hand; the spec calls it a single small
    tolerance shared by all singularity checks.  It is a parameter here. *)
Variable TOLERANCE : float.

(** [canBeInverse(const mat4&)]. *)
Definition canBeInverse (mat : mat4) : bool :=
  negb (fle (Rabs (determinant mat)) TOLERANCE).

(** [inverse(const mat4&)]. *)
Definition inverse (mat : mat4) : mat4 :=
  if fle (Rabs (determinant mat)) TOLERANCE then mat4_identity
  else
    let a := mkvec3 (get mat 0 0) (get mat 1 0) (get mat 2 0) in
    let b := mkvec3 (get mat 0 1) (get mat 1 1) (get mat 2 1) in
    let c := mkvec3 (get mat 0 2) (get mat 1 2) (get mat 2 2) in
    let d := mkvec3 (get mat 0 3) (get mat 1 3) (get mat 2 3) in
    let x := get mat 3 0 in
    let y := get mat 3 1 in
    let z := get mat 3 2 in
    let w := get mat 3 3 in
    let s := cross a b in
    let t := cross c d in
    let u := (a * y - b * x)%v3 in
    let v := (c * w - d * z)%v3 in
    let invDet := 1 / (dot s v + dot t u) in
    let s := (s * invDet)%v3 in
    let t := (t * invDet)%v3 in
    let u := (u * invDet)%v3 in
    let v := (v * invDet)%v3 in
    let r0 := (cross b v + t * y)%v3 in
    let r1 := (cross v a - t * x)%v3 in
    let r2 := (cross d u + s * w)%v3 in
    let r3 := (cross u c - s * z)%v3 in
    mat4_of_scalars (x3 r0) (y3 r0) (z3 r0) (- dot b t)
                    (x3 r1) (y3 r1) (z3 r1) (dot a t)
                    (x3 r2) (y3 r2) (z3 r2) (- dot d s)
                    (x3 r3) (y3 r3) (z3 r3) (dot c s).

End Tolerance.

(** The divisor of [invDet] in [inverse]: lines 161 to 176 of the header up
    to the division, with the same intermediate vectors. *)
Definition inverse_divisor (mat : mat4) : float :=
  let a := mkvec3 (get mat 0 0) (get mat 1 0) (get mat 2 0) in
  let b := mkvec3 (get mat 0 1) (get mat 1 1) (get mat 2 1) in
  let c := mkvec3 (get mat 0 2) (get mat 1 2) (get mat 2 2) in
  let d := mkvec3 (get mat 0 3) (get mat 1 3) (get mat 2 3) in
  let x := get mat 3 0 in
  let y := get mat 3 1 in
  let z := get mat 3 2 in
  let w := get mat 3 3 in
  let s := cross a b in
  let t := cross c d in
  let u := (a * y - b * x)%v3 in
  let v := (c * w - d * z)%v3 in
  dot s v + dot t u.

(** The rest of [inverse] after the division: lines 177 to 190 of the
    header, for a given value [invDet] of the reciprocal. *)
Definition inverse_with (mat : mat4) (invDet : float) : mat4 :=
  let a := mkvec3 (get mat 0 0) (get mat 1 0) (get mat 2 0) in
  let b := mkvec3 (get mat 0 1) (get mat 1 1) (get mat 2 1) in
  let c := mkvec3 (get mat 0 2) (get mat 1 2) (get mat 2 2) in
  let d := mkvec3 (get mat 0 3) (get mat 1 3) (get mat 2 3) in
  let x := get mat 3 0 in
  let y := get mat 3 1 in
  let z := get mat 3 2 in
  let w := get mat 3 3 in
  let s := (cross a b * invDet)%v3 in
  let t := (cross c d * invDet)%v3 in
  let u := ((a * y - b * x) * invDet)%v3 in
  let v := ((c * w - d * z) * invDet)%v3 in
  let r0 := (cross b v + t * y)%v3 in
  let r1 := (cross v a - t * x)%v3 in
  let r2 := (cross d u + s * w)%v3 in
  let r3 := (cross u c - s * z)%v3 in
  mat4_of_scalars (x3 r0) (y3 r0) (z3 r0) (- dot b t)
                  (x3 r1) (y3 r1) (z3 r1) (dot a t)
                  (x3 r2) (y3 r2) (z3 r2) (- dot d s)
                  (x3 r3) (y3 r3) (z3 r3) (dot c s).

(** ** transpose, translate, rotate, scale *)

(** [transpose(const mat4&)]. *)
Definition transpose (mat : mat4) : mat4 :=
  mat4_of_rows
    (mkvec4 (get mat 0 0) (get mat 1 0) (get mat 2 0) (get mat 3 0))
    (mkvec4 (get mat 0 1) (get mat 1 1) (get mat 2 1) (get mat 3 1))
    (mkvec4 (get mat 0 2) (get mat 1 2) (get mat 2 2) (get mat 3 2))
    (mkvec4 (get mat 0 3) (get mat 1 3) (get mat 2 3) (get mat 3 3)).

(** [translate(const mat4&, const vec3&)]: the three [+=] on the copy of
    row 3 are the three updated fields. *)
Definition translate (mat : mat4) (translation : vec3) : mat4 :=
  let translationRow := GetRow mat 3 in
  let translationRow :=
    mkvec4 (x4 translationRow + x3 translation) (y4 translationRow)
           (z4 translationRow) (w4 translationRow) in
  let translationRow :=
    mkvec4 (x4 translationRow) (y4 translationRow + y3 translation)
           (z4 translationRow) (w4 translationRow) in
  let translationRow :=
    mkvec4 (x4 translationRow) (y4 translationRow)
           (z4 translationRow + z3 translation) (w4 translationRow) in
  mat4_of_rows (GetRow mat 0) (GetRow mat 1) (GetRow mat 2) translationRow.

(** [rotate(const mat4&, const float&, const vec3&)]; the locals [cos] and
    [sin] of the source are [c] and [s] here. *)
Definition rotate (mat : mat4) (angle : float) (axis : vec3) : mat4 :=
  let c := cos angle in
  let s := sin angle in
  let d := 1 - c in
  let x := x3 axis * d in
  let y := y3 axis * d in
  let z := z3 axis * d in
  let axay := x * y3 axis in
  let axaz := x * y3 axis in
  let ayaz := y * z3 axis in
  mat4_of_scalars
    (c + x * x3 axis) (axay - s * z3 axis) (axaz + s * y3 axis) (get mat 0 3)
    (axay + s * z3 axis) (c + y * y3 axis) (ayaz - s * x3 axis) (get mat 1 3)
    (axaz - s * y3 axis) (ayaz + s * x3 axis) (c + z * z3 axis) (get mat 2 3)
    (get mat 3 0) (get mat 3 1) (get mat 3 2) (get mat 3 3).

(** [scale(const mat4&, const vec3&)]. *)
Definition scale (mat : mat4) (scale : vec3) : mat4 :=
  mat4_of_scalars
    (get mat 0 0 * x3 scale) (get mat 0 1) (get mat 0 2) (get mat 0 3)
    (get mat 1 0) (get mat 1 1 * y3 scale) (get mat 1 2) (get mat 1 3)
    (get mat 2 0) (get mat 2 1) (get mat 2 2 * z3 scale) (get mat 2 3)
    (get mat 3 0) (get mat 3 1) (get mat 3 2) (get mat 3 3).

(** ** The header over IEEE binary32 *)

Module F32.

(** [float]: IEEE binary32. *)
Definition float : Type := spec_float.

(** 24 bits of significand, infinities at exponent 128. *)
Definition prec : Z := 24%Z.

Definition emax : Z := 128%Z.

(** The float nearest to an integer (an integer literal of the source). *)
Definition of_Z (z : Z) : float := binary_normalize prec emax z 0%Z false.

(** [0.0f] and [1.0f]. *)
Definition zero : float := S754_zero false.

Definition one : float := of_Z 1.

(** [x + y], [x - y], [x * y], [x / y] and [-x] on floats, each rounded once. *)
Definition add (x y : float) : float := SFadd prec emax x y.

Definition sub (x y : float) : float := SFsub prec emax x y.

Definition mult (x y : float) : float := SFmul prec emax x y.

Definition div (x y : float) : float := SFdiv prec emax x y.

Definition opp (x : float) : float := SFopp x.

(** [std::abs(x)]. *)
Definition abs (x : float) : float := SFabs x.

(** [x <= y]: false when either side is a NaN. *)
Definition fle (x y : float) : bool := SFleb x y.

Declare Scope f32_scope.
Delimit Scope f32_scope with f32.
Infix "+" := add : f32_scope.
Infix "-" := sub : f32_scope.
Infix "*" := mult : f32_scope.
Infix "/" := div : f32_scope.
Notation "- x" := (opp x) : f32_scope.

(** Modelled from the spec: [vec3.h] and [vec4.h] are not part of the
    sources at hand; the types and operations are those of the top level,
    with float arithmetic. *)
Record vec3 : Type := mkvec3 { x3 : float; y3 : float; z3 : float }.

Record vec4 : Type := mkvec4 { x4 : float; y4 : float; z4 : float; w4 : float }.

(** Modelled from the spec: [operator+(vec3, vec3)], component-wise. *)
Definition vec3_add (p q : vec3) : vec3 :=
  mkvec3 (x3 p + x3 q)%f32 (y3 p + y3 q)%f32 (z3 p + z3 q)%f32.

(** Modelled from the spec: [operator-(vec3, vec3)], component-wise. *)
Definition vec3_sub (p q : vec3) : vec3 :=
  mkvec3 (x3 p - x3 q)%f32 (y3 p - y3 q)%f32 (z3 p - z3 q)%f32.

(** Modelled from the spec: [operator*(vec3, float)] and [operator*=]. *)
Definition vec3_scale (p : vec3) (k : float) : vec3 :=
  mkvec3 (x3 p * k)%f32 (y3 p * k)%f32 (z3 p * k)%f32.

(** Modelled from the spec: [dot(vec3, vec3)], summed left to right. *)
Definition dot (p q : vec3) : float :=
  (x3 p * x3 q + y3 p * y3 q + z3 p * z3 q)%f32.

(** Modelled from the spec: [cross(vec3, vec3)]. *)
Definition cross (p q : vec3) : vec3 :=
  mkvec3 (y3 p * z3 q - z3 p * y3 q)%f32
         (z3 p * x3 q - x3 p * z3 q)%f32
         (x3 p * y3 q - y3 p * x3 q)%f32.

(** [float m[4][4]]. *)
Record mat4 : Type := mkmat4 {
  m00 : float; m01 : float; m02 : float; m03 : float;
  m10 : float; m11 : float; m12 : float; m13 : float;
  m20 : float; m21 : float; m22 : float; m23 : float;
  m30 : float; m31 : float; m32 : float; m33 : float
}.

(** [mat4(float m00, ..., float m33)].
    Modelled from the spec: row-major, as at the top level. *)
Definition mat4_of_scalars
  (a00 a01 a02 a03 a10 a11 a12 a13
   a20 a21 a22 a23 a30 a31 a32 a33 : float) : mat4 :=
  mkmat4 a00 a01 a02 a03 a10 a11 a12 a13 a20 a21 a22 a23 a30 a31 a32 a33.

(** [mat4()].
    Modelled from the spec: the identity matrix, as at the top level. *)
Definition mat4_identity : mat4 :=
  mkmat4 one zero zero zero
         zero one zero zero
         zero zero one zero
         zero zero zero one.

(** [mat4(vec4 row1, vec4 row2, vec4 row3, vec4 row4)].
    Modelled from the spec: each argument is one row, as at the top level. *)
Definition mat4_of_rows (row1 row2 row3 row4 : vec4) : mat4 :=
  mkmat4 (x4 row1) (y4 row1) (z4 row1) (w4 row1)
         (x4 row2) (y4 row2) (z4 row2) (w4 row2)
         (x4 row3) (y4 row3) (z4 row3) (w4 row3)
         (x4 row4) (y4 row4) (z4 row4) (w4 row4).

(** [operator()(int i, int j)]; 0 outside 0..3, where the source is
    undefined. *)
Definition get (mat : mat4) (i j : nat) : float :=
  match i, j with
  | 0, 0 => m00 mat | 0, 1 => m01 mat | 0, 2 => m02 mat | 0, 3 => m03 mat
  | 1, 0 => m10 mat | 1, 1 => m11 mat | 1, 2 => m12 mat | 1, 3 => m13 mat
  | 2, 0 => m20 mat | 2, 1 => m21 mat | 2, 2 => m22 mat | 2, 3 => m23 mat
  | 3, 0 => m30 mat | 3, 1 => m31 mat | 3, 2 => m32 mat | 3, 3 => m33 mat
  | _, _ => zero
  end%nat.

(** [mat4::determinant()]. *)
Definition determinant (mat : mat4) : float :=
  (let a0 := get mat 0 0 * get mat 1 1 - get mat 0 1 * get mat 1 0 in
   let a1 := get mat 0 0 * get mat 1 2 - get mat 0 2 * get mat 1 0 in
   let a2 := get mat 0 0 * get mat 1 3 - get mat 0 3 * get mat 1 0 in
   let a3 := get mat 0 1 * get mat 1 2 - get mat 0 2 * get mat 1 1 in
   let a4 := get mat 0 1 * get mat 1 3 - get mat 0 3 * get mat 1 1 in
   let a5 := get mat 0 2 * get mat 1 3 - get mat 0 3 * get mat 1 2 in
   let b0 := get mat 2 0 * get mat 3 1 - get mat 2 1 * get mat 3 0 in
   let b1 := get mat 2 0 * get mat 3 2 - get mat 2 2 * get mat 3 0 in
   let b2 := get mat 2 0 * get mat 3 3 - get mat 2 3 * get mat 3 0 in
   let b3 := get mat 2 1 * get mat 3 2 - get mat 2 2 * get mat 3 1 in
   let b4 := get mat 2 1 * get mat 3 3 - get mat 2 3 * get mat 3 1 in
   let b5 := get mat 2 2 * get mat 3 3 - get mat 2 3 * get mat 3 2 in
   a0 * b5 - a1 * b4 + a2 * b3 + a3 * b2 - a4 * b1 + a5 * b0)%f32.

(** [mat4::GetRow(int index)]. *)
Definition GetRow (mat : mat4) (index : nat) : vec4 :=
  mkvec4 (get mat index 0) (get mat index 1) (get mat index 2) (get mat index 3).

(** [p[k] = v] and [p[k]] on the local buffer [float p[16]]. *)
Fixpoint store (p : list float) (k : nat) (v : float) : list float :=
  match p, k with
  | [], _ => []
  | _ :: rest, O => v :: rest
  | h :: rest, S k' => h :: store rest k' v
  end.

Definition load (p : list float) (k : nat) : float := nth k p zero.

(** The innermost loop of [operator*]: [sum = 0.0f] and four [sum += ...]. *)
Definition mul_sum (mat1 mat2 : mat4) (row col : nat) : float :=
  fold_left (fun sum i => (sum + get mat1 row i * get mat2 i col)%f32)
            (seq 0 4) zero.

(** The two outer loops, writing [p[col + row * 4]]. *)
Definition mul_fill (p0 : list float) (mat1 mat2 : mat4) : list float :=
  fold_left
    (fun p col =>
       fold_left
         (fun p row => store p (col + row * 4) (mul_sum mat1 mat2 row col))
         (seq 0 4) p)
    (seq 0 4) p0.

(** [operator*(const mat4&, const mat4&)]; every cell of the buffer is
    written before it is read, so the buffer starts from zeros here. *)
Definition mul (mat1 mat2 : mat4) : mat4 :=
  let p := mul_fill (repeat zero 16) mat1 mat2 in
  mat4_of_scalars (load p 0) (load p 1) (load p 2) (load p 3)
                  (load p 4) (load p 5) (load p 6) (load p 7)
                  (load p 8) (load p 9) (load p 10) (load p 11)
                  (load p 12) (load p 13) (load p 14) (load p 15).

(** [canBeInverse(const mat4&)]; [TOLERANCE] (mathbase.h) is a parameter. *)
Definition canBeInverse (TOLERANCE : float) (mat : mat4) : bool :=
  negb (fle (abs (determinant mat)) TOLERANCE).

(** [inverse(const mat4&)]. *)
Definition inverse (TOLERANCE : float) (mat : mat4) : mat4 :=
  if fle (abs (determinant mat)) TOLERANCE then mat4_identity
  else
    let a := mkvec3 (get mat 0 0) (get mat 1 0) (get mat 2 0) in
    let b := mkvec3 (get mat 0 1) (get mat 1 1) (get mat 2 1) in
    let c := mkvec3 (get mat 0 2) (get mat 1 2) (get mat 2 2) in
    let d := mkvec3 (get mat 0 3) (get mat 1 3) (get mat 2 3) in
    let x := get mat 3 0 in
    let y := get mat 3 1 in
    let z := get mat 3 2 in
    let w := get mat 3 3 in
    let s := cross a b in
    let t := cross c d in
    let u := vec3_sub (vec3_scale a y) (vec3_scale b x) in
    let v := vec3_sub (vec3_scale c w) (vec3_scale d z) in
    let invDet := (one / (dot s v + dot t u))%f32 in
    let s := vec3_scale s invDet in
    let t := vec3_scale t invDet in
    let u := vec3_scale u invDet in
    let v := vec3_scale v invDet in
    let r0 := vec3_add (cross b v) (vec3_scale t y) in
    let r1 := vec3_sub (cross v a) (vec3_scale t x) in
    let r2 := vec3_add (cross d u) (vec3_scale s w) in
    let r3 := vec3_sub (cross u c) (vec3_scale s z) in
    mat4_of_scalars (x3 r0) (y3 r0) (z3 r0) (- dot b t)%f32
                    (x3 r1) (y3 r1) (z3 r1) (dot a t)
                    (x3 r2) (y3 r2) (z3 r2) (- dot d s)%f32
                    (x3 r3) (y3 r3) (z3 r3) (dot c s).

(** The divisor of [invDet] in [inverse]: lines 161 to 176 of the header up
    to the division. *)
Definition inverse_divisor (mat : mat4) : float :=
  let a := mkvec3 (get mat 0 0) (get mat 1 0) (get mat 2 0) in
  let b := mkvec3 (get mat 0 1) (get mat 1 1) (get mat 2 1) in
  let c := mkvec3 (get mat 0 2) (get mat 1 2) (get mat 2 2) in
  let d := mkvec3 (get mat 0 3) (get mat 1 3) (get mat 2 3) in
  let x := get mat 3 0 in
  let y := get mat 3 1 in
  let z := get mat 3 2 in
  let w := get mat 3 3 in
  let s := cross a b in
  let t := cross c d in
  let u := vec3_sub (vec3_scale a y) (vec3_scale b x) in
  let v := vec3_sub (vec3_scale c w) (vec3_scale d z) in
  (dot s v + dot t u)%f32.

(** [translate(const mat4&, const vec3&)]. *)
Definition translate (mat : mat4) (translation : vec3) : mat4 :=
  let translationRow := GetRow mat 3 in
  let translationRow :=
    mkvec4 (x4 translationRow + x3 translation)%f32 (y4 translationRow)
           (z4 translationRow) (w4 translationRow) in
  let translationRow :=
    mkvec4 (x4 translationRow) (y4 translationRow + y3 translation)%f32
           (z4 translationRow) (w4 translationRow) in
  let translationRow :=
    mkvec4 (x4 translationRow) (y4 translationRow)
           (z4 translationRow + z3 translation)%f32 (w4 translationRow) in
  mat4_of_rows (GetRow mat 0) (GetRow mat 1) (GetRow mat 2) translationRow.

(** [a] and [b] are within [epsilon] of each other: [|a - b| <= epsilon]. *)
Definition within (epsilon a b : float) : bool := fle (abs (a - b)%f32) epsilon.

(** A matrix of small integers whose determinant is -1 exactly. *)
Definition sample_cancelling : mat4 :=
  mat4_of_scalars
    (of_Z (-10)) (of_Z (-33)) (of_Z 22) (of_Z 56)
    (of_Z 56) (of_Z (-47)) (of_Z (-49)) (of_Z (-12))
    (of_Z (-27)) (of_Z (-16)) (of_Z 36) (of_Z (-64))
    (of_Z (-83)) (of_Z 31) (of_Z 85) (of_Z (-51)).



(** A tolerance, 2^-20. *)
Definition sample_tolerance : float := S754_finite false 8388608 (-43).

End F32.

(** ** Reference definitions *)

(** *** The determinant as mathematics defines it *)

(** All the ways of putting [x] into [l]. *)
Fixpoint interleave (x : nat) (l : list nat) : list (list nat) :=
  match l with
  | [] => [[x]]
  | y :: rest => (x :: l) :: map (cons y) (interleave x rest)
  end.

(** All the orderings of [l]. *)
Fixpoint permutations (l : list nat) : list (list nat) :=
  match l with
  | [] => [[]]
  | x :: rest => flat_map (interleave x) (permutations rest)
  end.

(** The number of pairs of positions that [p] puts out of order. *)
Fixpoint inversions (p : list nat) : nat :=
  match p with
  | [] => 0
  | x :: rest => length (filter (fun y => y <? x)%nat rest) + inversions rest
  end.

(** The signature of a permutation given as the list of its images. *)
Definition signature (p : list nat) : float :=
  if Nat.even (inversions p) then 1 else -1.

(** The sum of the reals of a list. *)
Definition sum_list (l : list float) : float := fold_right Rplus 0 l.

(** Leibniz's formula: the sum over the permutations [p] of 0..3 of
    [signature p * M(0,p 0) * M(1,p 1) * M(2,p 2) * M(3,p 3)]. *)
Definition det_leibniz (mat : mat4) : float :=
  sum_list
    (map (fun p => signature p
                   * (get mat 0 (nth 0 p 0%nat) * get mat 1 (nth 1 p 0%nat)
                      * get mat 2 (nth 2 p 0%nat) * get mat 3 (nth 3 p 0%nat)))
         (permutations (seq 0 4))).

(** [l] without its element of index [k]. *)
Fixpoint drop_nth (k : nat) (l : list float) : list float :=
  match l, k with
  | [], _ => []
  | _ :: rest, O => rest
  | h :: rest, S k' => h :: drop_nth k' rest
  end.

(** Laplace's expansion along the first row of an [n] by [n] matrix given as
    the list of its rows: the alternating sum of the entries of that row times
    the determinants of the minors. *)
Fixpoint det_laplace (n : nat) (rows : list (list float)) : float :=
  match n, rows with
  | O, _ => 1
  | S _, [] => 0
  | S n', r :: rest =>
      sum_list
        (map (fun j => (-1) ^ j * nth j r 0 * det_laplace n' (map (drop_nth j) rest))
             (seq 0 n))
  end.

(** The four rows of a matrix, each as the list of its four entries. *)
Definition rows_of (mat : mat4) : list (list float) :=
  map (fun i => map (get mat i) (seq 0 4)) (seq 0 4).

(** *** The axis-angle rotation as Rodrigues' formula defines it *)

(** The components of a [vec3] by index. *)
Definition component (p : vec3) (i : nat) : float :=
  match i with
  | 0 => x3 p
  | 1 => y3 p
  | 2 => z3 p
  | _ => 0%R
  end%nat.

(** Kronecker's delta. *)
Definition delta (i j : nat) : float := if Nat.eqb i j then 1 else 0.

(** The cross-product matrix of [k]: entry [(i, j)] of the matrix that maps
    [p] to [cross k p]. *)
Definition skew (k : vec3) (i j : nat) : float :=
  match i, j with
  | 0, 1 => - z3 k | 0, 2 => y3 k
  | 1, 0 => z3 k | 1, 2 => - x3 k
  | 2, 0 => - y3 k | 2, 1 => x3 k
  | _, _ => 0%R
  end%nat.

(** Rodrigues' rotation matrix for the unit axis [k]:
    [cos angle * I + sin angle * skew k + (1 - cos angle) * k k^T]. *)
Definition rodrigues (angle : float) (k : vec3) (i j : nat) : float :=
  cos angle * delta i j + sin angle * skew k i j
  + (1 - cos angle) * (component k i * component k j).

(** The zero matrix. *)
Definition mat4_zero : mat4 := mat4_of_scalar 0.

(** Column [j] of a matrix, top to bottom. *)
Definition GetColumn (mat : mat4) (j : nat) : vec4 :=
  mkvec4 (get mat 0 j) (get mat 1 j) (get mat 2 j) (get mat 3 j).

(** ** Sample inputs *)

(** The matrix whose entries are 1 to 16 in row-major order. *)
Definition sample_counting : mat4 :=
  mat4_of_scalars 1 2 3 4 5 6 7 8 9 10 11 12 13 14 15 16.

(** A second factor for products. *)
Definition sample_sparse : mat4 :=
  mat4_of_scalars 2 0 1 0 0 3 0 1 1 0 4 0 0 1 0 5.

(** An affine map: x doubled, then a translation by (1, 2, 3); its
    determinant is 2. *)
Definition sample_affine : mat4 :=
  mat4_of_scalars 2 0 0 0 0 1 0 0 0 0 1 0 1 2 3 1.

(** A tolerance, one millionth. *)
Definition sample_tolerance : float := 1 / 1000000.

(** The matrix of [F32.sample_cancelling], over the reals. *)
Definition sample_cancelling : mat4 :=
  mat4_of_scalars (-10) (-33) 22 56  56 (-47) (-49) (-12)
                  (-27) (-16) 36 (-64)  (-83) 31 85 (-51).

(** A unit axis in the x-y plane. *)
Definition sample_axis : vec3 := mkvec3 (3 / 5) (4 / 5) 0.

(** A scale, a translation and a homogeneous point. *)
Definition sample_scale : vec3 := mkvec3 2 4 5.

Definition sample_translation : vec3 := mkvec3 1 2 3.

Definition sample_point : vec4 := mkvec4 1 2 3 1.

(** ** Vocabulary of the further statements *)

(** The opposite of a vector, the component-wise product of two vectors and
    the component-wise reciprocal: they name the arguments that undo or
    combine a [translate] or a [scale]. *)
Definition vec3_opp (p : vec3) : vec3 := mkvec3 (- x3 p) (- y3 p) (- z3 p).

Definition vec3_times (p q : vec3) : vec3 :=
  mkvec3 (x3 p * x3 q) (y3 p * y3 q) (z3 p * z3 q).

Definition vec3_recip (p : vec3) : vec3 := mkvec3 (/ x3 p) (/ y3 p) (/ z3 p).

Definition vec3_zero : vec3 := mkvec3 0 0 0.

Definition vec3_ones : vec3 := mkvec3 1 1 1.

(** The z axis. *)
Definition axis_z : vec3 := mkvec3 0 0 1.

(** The last column of the matrix is (0, 0, 0, 1): the shape that the
    comment on [struct mat4] draws. *)
Definition last_column_unit (mat : mat4) : Prop :=
  get mat 0 3 = 0 /\ get mat 1 3 = 0 /\ get mat 2 3 = 0 /\ get mat 3 3 = 1.

(** Rows 0, 1 and 2 of the matrix are zero off the diagonal. *)
Definition upper_rows_diagonal (mat : mat4) : Prop :=
  (get mat 0 1 = 0 /\ get mat 0 2 = 0 /\ get mat 0 3 = 0)
  /\ (get mat 1 0 = 0 /\ get mat 1 2 = 0 /\ get mat 1 3 = 0)
  /\ (get mat 2 0 = 0 /\ get mat 2 1 = 0 /\ get mat 2 3 = 0).

(** ** Proof automation *)

(** Unfolds the code down to the sixteen fields and the real operations. *)
Ltac unfold_code :=
  cbv [mul mul_from mul_fill mul_sum load store fold_left seq nth repeat
       Nat.add Nat.mul mul_vec canBeInverse inverse inverse_divisor inverse_with
       transpose translate rotate scale GetRow GetColumn determinant get
       mat4_of_scalars mat4_of_scalar mat4_identity mat4_of_rows mat4_zero
       vec3_add vec3_sub vec3_scale dot cross component
       x3 y3 z3 x4 y4 z4 w4
       m00 m01 m02 m03 m10 m11 m12 m13 m20 m21 m22 m23 m30 m31 m32 m33].

(** Two matrices with the same sixteen fields are equal. *)
Lemma mkmat4_eq
  a00 a01 a02 a03 a10 a11 a12 a13 a20 a21 a22 a23 a30 a31 a32 a33
  b00 b01 b02 b03 b10 b11 b12 b13 b20 b21 b22 b23 b30 b31 b32 b33 :
  a00 = b00 -> a01 = b01 -> a02 = b02 -> a03 = b03 ->
  a10 = b10 -> a11 = b11 -> a12 = b12 -> a13 = b13 ->
  a20 = b20 -> a21 = b21 -> a22 = b22 -> a23 = b23 ->
  a30 = b30 -> a31 = b31 -> a32 = b32 -> a33 = b33 ->
  mkmat4 a00 a01 a02 a03 a10 a11 a12 a13 a20 a21 a22 a23 a30 a31 a32 a33 =
  mkmat4 b00 b01 b02 b03 b10 b11 b12 b13 b20 b21 b22 b23 b30 b31 b32 b33.
Proof. intros. subst. reflexivity. Qed.

(** Splits an equation between two matrices into its sixteen entries. *)
Ltac by_entries := unfold_code; apply mkmat4_eq.

(** Case analysis on an index [i] known to be below 4 (or below 3). *)
Ltac index_cases i :=
  destruct i as [| [| [| [| i]]]]; try (exfalso; lia).

(** Two matrices that agree at every index in range are equal. *)
Lemma mat4_ext (p q : mat4) :
  (forall i j, (i < 4)%nat -> (j < 4)%nat -> get p i j = get q i j) -> p = q.
Proof.
  intros H. destruct p, q. apply mkmat4_eq.
  - apply (H 0 0)%nat; lia.
  - apply (H 0 1)%nat; lia.
  - apply (H 0 2)%nat; lia.
  - apply (H 0 3)%nat; lia.
  - apply (H 1 0)%nat; lia.
  - apply (H 1 1)%nat; lia.
  - apply (H 1 2)%nat; lia.
  - apply (H 1 3)%nat; lia.
  - apply (H 2 0)%nat; lia.
  - apply (H 2 1)%nat; lia.
  - apply (H 2 2)%nat; lia.
  - apply (H 2 3)%nat; lia.
  - apply (H 3 0)%nat; lia.
  - apply (H 3 1)%nat; lia.
  - apply (H 3 2)%nat; lia.
  - apply (H 3 3)%nat; lia.
Qed.

(** ** The determinant *)

Lemma determinant_leibniz (mat : mat4) : determinant mat = det_leibniz mat.
Proof.
  destruct mat.
  cbv [det_leibniz sum_list permutations interleave flat_map map app seq
       fold_right signature inversions filter length Nat.ltb Nat.leb Nat.even
       Nat.add nth].
  unfold_code. ring.
Qed.

Lemma determinant_laplace (mat : mat4) :
  determinant mat = det_laplace 4 (rows_of mat).
Proof.
  destruct mat.
  cbv [det_laplace rows_of sum_list map seq fold_right drop_nth nth pow].
  unfold_code. ring.
Qed.

(** The reference formula ranges over the orderings of 0, 1, 2, 3 and over
    nothing else: every list it sums over is a rearrangement of [seq 0 4],
    there are 4! of them, and no two are the same. *)
Lemma interleave_permutation (x : nat) (l p : list nat) :
  In p (interleave x l) -> Permutation (x :: l) p.
Proof.
  revert p. induction l as [| y rest IH]; intros p Hin; simpl in Hin.
  - destruct Hin as [<- | []]. apply Permutation_refl.
  - destruct Hin as [<- | Hin]; [apply Permutation_refl |].
    apply in_map_iff in Hin. destruct Hin as [q [<- Hq]].
    apply perm_trans with (y :: x :: rest).
    + apply perm_swap.
    + apply perm_skip, IH, Hq.
Qed.

Lemma permutations_sound (l p : list nat) :
  In p (permutations l) -> Permutation l p.
Proof.
  revert p. induction l as [| x rest IH]; intros p Hin; simpl in Hin.
  - destruct Hin as [<- | []]. apply perm_nil.
  - apply in_flat_map in Hin. destruct Hin as [q [Hq Hp]].
    apply perm_trans with (x :: q).
    + apply perm_skip, IH, Hq.
    + apply interleave_permutation, Hp.
Qed.

Lemma permutations_of_four :
  length (permutations (seq 0 4)) = 24%nat /\ NoDup (permutations (seq 0 4)).
Proof.
  split; [reflexivity |].
  apply (NoDup_count_occ (list_eq_dec Nat.eq_dec)).
  intros p.
  destruct (in_dec (list_eq_dec Nat.eq_dec) p (permutations (seq 0 4)))
    as [Hin | Hout].
  - cbv in Hin.
    repeat (destruct Hin as [<- | Hin]; [vm_compute; lia |]).
    destruct Hin.
  - apply (count_occ_not_In (list_eq_dec Nat.eq_dec)) in Hout.
    rewrite Hout. lia.
Qed.

Lemma determinant_identity : determinant mat4_identity = 1.
Proof. unfold_code. ring. Qed.

Lemma determinant_zero : determinant mat4_zero = 0.
Proof. unfold_code. ring. Qed.

(** Two properties that single the determinant out: it is unchanged by
    transposition and it is multiplicative. *)
Lemma determinant_transpose (mat : mat4) :
  determinant (transpose mat) = determinant mat.
Proof. destruct mat. unfold_code. ring. Qed.

Lemma determinant_mul (mat1 mat2 : mat4) :
  determinant (mul mat1 mat2) = determinant mat1 * determinant mat2.
Proof. destruct mat1, mat2. unfold_code. ring. Qed.

(** C4.  The value that [determinant] builds from the six minors [a0..a5] of
    rows 0 and 1 and the six minors [b0..b5] of rows 2 and 3 is the
    determinant of the 4 by 4 matrix of the sixteen elements: it equals the
    sum over the 24 permutations of the signed products (Leibniz), and it
    equals the expansion by minors along the first row (Laplace). *)
Theorem determinant_is_the_determinant (mat : mat4) :
  determinant mat = det_leibniz mat /\
  determinant mat = det_laplace 4 (rows_of mat).
Proof.
  split; [apply determinant_leibniz | apply determinant_laplace].
Qed.

(** ** Multiplication *)

(** X1.  The loops of [operator*] write every cell of [p], so the matrix
    they build does not depend on what the buffer held before. *)
Lemma mul_from_any_buffer (p0 : list R) (mat1 mat2 : mat4) :
  length p0 = 16%nat -> mul_from p0 mat1 mat2 = mul mat1 mat2.
Proof.
  intros Hlen.
  do 16 (destruct p0 as [| ? p0]; [discriminate Hlen |]).
  destruct p0; [| discriminate Hlen].
  reflexivity.
Qed.

(** Row [row], column [col] of the result is read from cell [col + row * 4]. *)
Lemma mul_reads_cell (p0 : list R) (mat1 mat2 : mat4) (row col : nat) :
  (row < 4)%nat -> (col < 4)%nat ->
  get (mul_from p0 mat1 mat2) row col
  = load (mul_fill p0 mat1 mat2) (col + row * 4).
Proof.
  intros Hrow Hcol. index_cases row; index_cases col; reflexivity.
Qed.

(** C5.  For row and column indices in 0..3, the cell [p[col + row * 4]]
    that the loops of [operator*] fill, and with it the element
    [(row, col)] of the product, is the sum over [i] in 0..3 of
    [mat1(row, i) * mat2(i, col)]. *)
Theorem mul_entry (mat1 mat2 : mat4) (row col : nat) :
  (row < 4)%nat -> (col < 4)%nat ->
  load (mul_fill (repeat 0 16) mat1 mat2) (col + row * 4)
  = sum_f_R0 (fun i => get mat1 row i * get mat2 i col) 3
  /\ get (mul mat1 mat2) row col
     = sum_f_R0 (fun i => get mat1 row i * get mat2 i col) 3.
Proof.
  intros Hrow Hcol.
  assert (Hcell : load (mul_fill (repeat 0 16) mat1 mat2) (col + row * 4)
                  = sum_f_R0 (fun i => get mat1 row i * get mat2 i col) 3).
  { destruct mat1, mat2.
    index_cases row; index_cases col; cbv [sum_f_R0]; unfold_code; ring. }
  split; [exact Hcell |].
  unfold mul. rewrite mul_reads_cell by assumption. exact Hcell.
Qed.

Lemma mul_entry_witness :
  ((1 < 4)%nat /\ (2 < 4)%nat) /\
  (load (mul_fill (repeat 0 16) sample_counting sample_sparse) (2 + 1 * 4)
   = sum_f_R0 (fun i => get sample_counting 1 i * get sample_sparse i 2) 3
   /\ get (mul sample_counting sample_sparse) 1 2
      = sum_f_R0 (fun i => get sample_counting 1 i * get sample_sparse i 2) 3).
Proof.
  split; [lia |].
  apply (mul_entry sample_counting sample_sparse 1 2); lia.
Defined.

Lemma mul_example : get (mul sample_counting sample_sparse) 1 2 = 33.
Proof. unfold sample_counting, sample_sparse. unfold_code. ring. Qed.

Lemma mul_identity_r (mat : mat4) : mul mat mat4_identity = mat.
Proof. destruct mat. by_entries; ring. Qed.

Lemma mul_identity_l (mat : mat4) : mul mat4_identity mat = mat.
Proof. destruct mat. by_entries; ring. Qed.

Lemma mul_vec_identity (vec : vec4) : mul_vec mat4_identity vec = vec.
Proof. destruct vec. unfold_code. f_equal; ring. Qed.

Lemma mul_assoc (mat1 mat2 mat3 : mat4) :
  mul (mul mat1 mat2) mat3 = mul mat1 (mul mat2 mat3).
Proof. destruct mat1, mat2, mat3. by_entries; ring. Qed.

(** ** Transpose *)

(** C6.  Row [i] of [transpose mat] is column [i] of [mat], for [i] in
    0..3, and transposing twice gives the matrix back. *)
Theorem transpose_rows_and_involution (mat : mat4) (i : nat) :
  (i < 4)%nat ->
  GetRow (transpose mat) i = GetColumn mat i
  /\ transpose (transpose mat) = mat.
Proof.
  intros Hi. split.
  - index_cases i; reflexivity.
  - destruct mat. reflexivity.
Qed.

Lemma transpose_rows_and_involution_witness :
  (2 < 4)%nat /\
  (GetRow (transpose sample_counting) 2 = GetColumn sample_counting 2
   /\ transpose (transpose sample_counting) = sample_counting).
Proof.
  split; [lia |].
  apply (transpose_rows_and_involution sample_counting 2). lia.
Defined.

Lemma transpose_example :
  GetRow (transpose sample_counting) 2 = mkvec4 3 7 11 15.
Proof. reflexivity. Qed.

(** ** Translate *)


Lemma translate_example :
  translate mat4_identity (mkvec3 5 6 7)
  = mat4_of_scalars 1 0 0 0  0 1 0 0  0 0 1 0  (0 + 5) (0 + 6) (0 + 7) 1.
Proof. reflexivity. Qed.

(** ** Scale *)

Lemma scale_example :
  mul_vec (scale mat4_identity (mkvec3 2 3 4)) (mkvec4 1 1 1 1)
  = mkvec4 2 3 4 1.
Proof. unfold_code. f_equal; ring. Qed.

(** ** Rotate *)

(** C8.  [rotate] copies column 3 of rows 0, 1, 2 and the whole of row 3
    from its input matrix. *)
Theorem rotate_frame (mat : mat4) (angle : R) (axis : vec3) :
  get (rotate mat angle axis) 0 3 = get mat 0 3
  /\ get (rotate mat angle axis) 1 3 = get mat 1 3
  /\ get (rotate mat angle axis) 2 3 = get mat 2 3
  /\ GetRow (rotate mat angle axis) 3 = GetRow mat 3.
Proof. repeat split. Qed.

(** C10.  The upper-left 3 by 3 block of [rotate mat angle axis] is the same
    for every [mat]: it is built from [angle] and [axis] alone. *)
Theorem rotate_block_ignores_input
  (mat1 mat2 : mat4) (angle : R) (axis : vec3) (i j : nat) :
  (i < 3)%nat -> (j < 3)%nat ->
  get (rotate mat1 angle axis) i j = get (rotate mat2 angle axis) i j.
Proof.
  intros Hi Hj. index_cases i; index_cases j; reflexivity.
Qed.

Lemma rotate_block_ignores_input_witness :
  ((1 < 3)%nat /\ (2 < 3)%nat) /\
  get (rotate sample_counting PI sample_axis) 1 2
  = get (rotate mat4_identity PI sample_axis) 1 2.
Proof.
  split; [lia |].
  apply (rotate_block_ignores_input
           sample_counting mat4_identity PI sample_axis 1 2); lia.
Defined.

(** The block that the code builds, entry by entry: the coefficient of
    positions (0,2) and (2,0) is [axis.x * d * axis.y], the same as the one
    of positions (0,1) and (1,0). *)
Lemma rotate_block (mat : mat4) (angle : R) (axis : vec3) :
  let c := cos angle in
  let s := sin angle in
  let d := 1 - c in
  get (rotate mat angle axis) 0 0 = c + x3 axis * d * x3 axis
  /\ get (rotate mat angle axis) 0 1 = x3 axis * d * y3 axis - s * z3 axis
  /\ get (rotate mat angle axis) 0 2 = x3 axis * d * y3 axis + s * y3 axis
  /\ get (rotate mat angle axis) 1 0 = x3 axis * d * y3 axis + s * z3 axis
  /\ get (rotate mat angle axis) 1 1 = c + y3 axis * d * y3 axis
  /\ get (rotate mat angle axis) 1 2 = y3 axis * d * z3 axis - s * x3 axis
  /\ get (rotate mat angle axis) 2 0 = x3 axis * d * y3 axis - s * y3 axis
  /\ get (rotate mat angle axis) 2 1 = y3 axis * d * z3 axis + s * x3 axis
  /\ get (rotate mat angle axis) 2 2 = c + z3 axis * d * z3 axis.
Proof. repeat split. Qed.

(** Away from positions (0,2) and (2,0) the block is Rodrigues' matrix. *)
Lemma rotate_rodrigues_elsewhere
  (mat : mat4) (angle : R) (axis : vec3) (i j : nat) :
  (i < 3)%nat -> (j < 3)%nat -> (i + j <> 2)%nat \/ (i = 1 /\ j = 1)%nat ->
  get (rotate mat angle axis) i j = rodrigues angle axis i j.
Proof.
  intros Hi Hj Hij.
  index_cases i; index_cases j; try (exfalso; lia);
    cbv [rodrigues delta skew Nat.eqb]; unfold_code; ring.
Qed.

(** At positions (0,2) and (2,0) the block is off Rodrigues' matrix by
    [axis.x * d * (axis.y - axis.z)]. *)
Lemma rotate_rodrigues_gap (mat : mat4) (angle : R) (axis : vec3) :
  get (rotate mat angle axis) 0 2 - rodrigues angle axis 0 2
  = x3 axis * (1 - cos angle) * (y3 axis - z3 axis)
  /\ get (rotate mat angle axis) 2 0 - rodrigues angle axis 2 0
     = x3 axis * (1 - cos angle) * (y3 axis - z3 axis).
Proof.
  split; cbv [rodrigues delta skew Nat.eqb]; unfold_code; ring.
Qed.

(** C1.  The code at a half turn about the unit axis (3/5, 4/5, 0): the
    elements (0,2) and (2,0) of the result are 24/25, which is
    [axis.x * d * axis.y]; the term [axis.x * d * axis.z] that the claim asks
    for is 0 there, and so are the two entries of Rodrigues' matrix. *)
Theorem rotate_xz_term_half_turn :
  dot sample_axis sample_axis = 1
  /\ get (rotate mat4_identity PI sample_axis) 0 2 = 24 / 25
  /\ get (rotate mat4_identity PI sample_axis) 2 0 = 24 / 25
  /\ x3 sample_axis * (1 - cos PI) * z3 sample_axis = 0
  /\ rodrigues PI sample_axis 0 2 = 0
  /\ rodrigues PI sample_axis 2 0 = 0.
Proof.
  unfold sample_axis. cbv [rodrigues delta skew Nat.eqb]. unfold_code.
  rewrite cos_PI, sin_PI. repeat split; field.
Qed.

Lemma rotate_zero_angle (mat : mat4) (axis : vec3) (i j : nat) :
  (i < 3)%nat -> (j < 3)%nat ->
  get (rotate mat 0 axis) i j = get mat4_identity i j.
Proof.
  intros Hi Hj. index_cases i; index_cases j;
    unfold_code; rewrite ?cos_0, ?sin_0; ring.
Qed.

Lemma rotate_half_turn_about_z :
  mul_vec (rotate mat4_identity PI (mkvec3 0 0 1)) (mkvec4 1 0 0 1)
  = mkvec4 (-1) 0 0 1.
Proof. unfold_code. rewrite cos_PI, sin_PI. f_equal; ring. Qed.

(** ** The tolerance test and the inverse *)

Lemma fle_true (x y : R) : fle x y = true <-> x <= y.
Proof.
  unfold fle. destruct (Rle_dec x y); split; intros; try easy.
Qed.

Lemma fle_false (x y : R) : fle x y = false <-> y < x.
Proof.
  unfold fle. destruct (Rle_dec x y); split; intros; try easy; lra.
Qed.

Lemma canBeInverse_true (TOLERANCE : R) (mat : mat4) :
  canBeInverse TOLERANCE mat = true <-> TOLERANCE < Rabs (determinant mat).
Proof.
  unfold canBeInverse. rewrite negb_true_iff. apply fle_false.
Qed.

Lemma canBeInverse_false (TOLERANCE : R) (mat : mat4) :
  canBeInverse TOLERANCE mat = false <-> Rabs (determinant mat) <= TOLERANCE.
Proof.
  unfold canBeInverse. rewrite negb_false_iff. apply fle_true.
Qed.

Lemma above_tolerance_nonzero (TOLERANCE : R) (mat : mat4) :
  0 <= TOLERANCE -> TOLERANCE < Rabs (determinant mat) ->
  determinant mat <> 0.
Proof.
  intros Htol Hcan Hz. rewrite Hz, Rabs_R0 in Hcan. lra.
Qed.

Lemma inverse_divisor_determinant (mat : mat4) :
  inverse_divisor mat = determinant mat.
Proof. destruct mat. unfold_code. ring. Qed.

(** The two branches of [inverse]. *)
Lemma inverse_fallback_branch (TOLERANCE : R) (mat : mat4) :
  Rabs (determinant mat) <= TOLERANCE -> inverse TOLERANCE mat = mat4_identity.
Proof.
  intros Hle. apply fle_true in Hle. unfold inverse. rewrite Hle. reflexivity.
Qed.

Lemma inverse_main_branch (TOLERANCE : R) (mat : mat4) :
  TOLERANCE < Rabs (determinant mat) ->
  inverse TOLERANCE mat = inverse_with mat (1 / inverse_divisor mat).
Proof.
  intros Hlt. apply fle_false in Hlt. unfold inverse. rewrite Hlt. reflexivity.
Qed.

(** With a reciprocal of the determinant in hand, the rows that [inverse]
    builds are a right and a left inverse. *)
Lemma mul_inverse_with (mat : mat4) (k : R) :
  k * determinant mat = 1 -> mul mat (inverse_with mat k) = mat4_identity.
Proof.
  destruct mat. unfold_code.
  match goal with |- _ * ?D = 1 -> _ => set (det := D); intros Hk end.
  apply mkmat4_eq;
    match goal with |- _ = ?e =>
      transitivity (k * det * e); [unfold det; ring | rewrite Hk; ring]
    end.
Qed.

Lemma inverse_with_mul (mat : mat4) (k : R) :
  k * determinant mat = 1 -> mul (inverse_with mat k) mat = mat4_identity.
Proof.
  destruct mat. unfold_code.
  match goal with |- _ * ?D = 1 -> _ => set (det := D); intros Hk end.
  apply mkmat4_eq;
    match goal with |- _ = ?e =>
      transitivity (k * det * e); [unfold det; ring | rewrite Hk; ring]
    end.
Qed.

Lemma reciprocal_of_divisor (mat : mat4) :
  determinant mat <> 0 -> 1 / inverse_divisor mat * determinant mat = 1.
Proof.
  intros Hdet. rewrite inverse_divisor_determinant. field. exact Hdet.
Qed.

(** C2, as amended (exact arithmetic).  For a tolerance that is not
    negative, a matrix that passes [canBeInverse] times its [inverse] is the
    identity matrix.  The float code does not keep the product within an
    epsilon of the identity: [f32_mul_inverse_not_identity]. *)
Theorem mul_inverse (TOLERANCE : R) (mat : mat4) :
  0 <= TOLERANCE ->
  canBeInverse TOLERANCE mat = true ->
  mul mat (inverse TOLERANCE mat) = mat4_identity.
Proof.
  intros Htol Hcan. apply canBeInverse_true in Hcan.
  rewrite (inverse_main_branch _ _ Hcan).
  apply mul_inverse_with, reciprocal_of_divisor.
  apply (above_tolerance_nonzero TOLERANCE); assumption.
Qed.

(** X9.  For a tolerance that is not negative, the [inverse] of a matrix
    that passes [canBeInverse], times the matrix, is the identity matrix:
    the inverse works on the left as well as on the right. *)
Lemma inverse_mul (TOLERANCE : R) (mat : mat4) :
  0 <= TOLERANCE ->
  canBeInverse TOLERANCE mat = true ->
  mul (inverse TOLERANCE mat) mat = mat4_identity.
Proof.
  intros Htol Hcan. apply canBeInverse_true in Hcan.
  rewrite (inverse_main_branch _ _ Hcan).
  apply inverse_with_mul, reciprocal_of_divisor.
  apply (above_tolerance_nonzero TOLERANCE); assumption.
Qed.

(** C3.  A matrix whose determinant is within the tolerance of zero has the
    identity matrix for [inverse]; [inverse] is a total function and gives no
    other sign of the matrix being singular: only [canBeInverse], which is
    false on such a matrix, tells the two cases apart. *)
Theorem inverse_singular (TOLERANCE : R) (mat : mat4) :
  Rabs (determinant mat) <= TOLERANCE ->
  inverse TOLERANCE mat = mat4_identity
  /\ canBeInverse TOLERANCE mat = false.
Proof.
  intros Hle. split.
  - apply inverse_fallback_branch, Hle.
  - apply canBeInverse_false, Hle.
Qed.

(** The all-zero matrix is such a matrix for every tolerance that is not
    negative. *)
Lemma inverse_zero (TOLERANCE : R) :
  0 <= TOLERANCE -> inverse TOLERANCE mat4_zero = mat4_identity.
Proof.
  intros Htol. apply inverse_fallback_branch.
  rewrite determinant_zero, Rabs_R0. exact Htol.
Qed.

(** The identity matrix is its own inverse by the main branch, so the result
    alone does not tell a singular input from the identity. *)
Lemma inverse_identity (TOLERANCE : R) :
  0 <= TOLERANCE -> TOLERANCE < 1 ->
  inverse TOLERANCE mat4_identity = mat4_identity.
Proof.
  intros Htol Hlt.
  rewrite inverse_main_branch
    by (rewrite determinant_identity, Rabs_R1; exact Hlt).
  by_entries; field.
Qed.

(** C9, as amended (exact arithmetic).  In the main branch of [inverse],
    for a tolerance that is not negative, the reciprocal [invDet] is taken
    of [dot s v + dot t u]; that divisor is the determinant, and it is not
    zero.  In the float code the guard and the divisor are two expressions
    rounded apart, and the divisor can be zero past the guard:
    [f32_divisor_zero_past_guard]. *)
Theorem inverse_divisor_nonzero (TOLERANCE : R) (mat : mat4) :
  0 <= TOLERANCE ->
  TOLERANCE < Rabs (determinant mat) ->
  inverse TOLERANCE mat = inverse_with mat (1 / inverse_divisor mat)
  /\ inverse_divisor mat = determinant mat
  /\ inverse_divisor mat <> 0.
Proof.
  intros Htol Hlt. split; [apply inverse_main_branch, Hlt |].
  split; [apply inverse_divisor_determinant |].
  rewrite inverse_divisor_determinant.
  apply (above_tolerance_nonzero TOLERANCE); assumption.
Qed.

(** ** The inverse on the sample inputs *)

Lemma determinant_sample_affine : determinant sample_affine = 2.
Proof. unfold sample_affine. unfold_code. ring. Qed.

Lemma sample_tolerance_nonneg : 0 <= sample_tolerance.
Proof. unfold sample_tolerance. lra. Qed.

Lemma sample_affine_above_tolerance :
  sample_tolerance < Rabs (determinant sample_affine).
Proof.
  rewrite determinant_sample_affine, Rabs_right by lra.
  unfold sample_tolerance. lra.
Qed.

Lemma sample_zero_within_tolerance :
  Rabs (determinant mat4_zero) <= sample_tolerance.
Proof.
  rewrite determinant_zero, Rabs_R0. apply sample_tolerance_nonneg.
Qed.

Lemma inverse_example :
  inverse sample_tolerance sample_affine
  = mat4_of_scalars (1 / 2) 0 0 0  0 1 0 0  0 0 1 0  (- (1 / 2)) (- 2) (- 3) 1.
Proof.
  rewrite (inverse_main_branch _ _ sample_affine_above_tolerance).
  unfold sample_affine. by_entries; field.
Qed.

Lemma mul_inverse_witness :
  (0 <= sample_tolerance /\ canBeInverse sample_tolerance sample_affine = true)
  /\ mul sample_affine (inverse sample_tolerance sample_affine) = mat4_identity.
Proof.
  assert (Hcan : canBeInverse sample_tolerance sample_affine = true)
    by (apply canBeInverse_true, sample_affine_above_tolerance).
  split; [split; [apply sample_tolerance_nonneg | exact Hcan] |].
  apply (mul_inverse sample_tolerance sample_affine
           sample_tolerance_nonneg Hcan).
Defined.

Lemma inverse_singular_witness :
  Rabs (determinant mat4_zero) <= sample_tolerance
  /\ (inverse sample_tolerance mat4_zero = mat4_identity
      /\ canBeInverse sample_tolerance mat4_zero = false).
Proof.
  split; [apply sample_zero_within_tolerance |].
  apply (inverse_singular sample_tolerance mat4_zero
           sample_zero_within_tolerance).
Defined.

Lemma inverse_divisor_nonzero_witness :
  (0 <= sample_tolerance
   /\ sample_tolerance < Rabs (determinant sample_affine))
  /\ (inverse sample_tolerance sample_affine
      = inverse_with sample_affine (1 / inverse_divisor sample_affine)
      /\ inverse_divisor sample_affine = determinant sample_affine
      /\ inverse_divisor sample_affine <> 0).
Proof.
  split;
    [split; [apply sample_tolerance_nonneg | apply sample_affine_above_tolerance] |].
  apply (inverse_divisor_nonzero sample_tolerance sample_affine
           sample_tolerance_nonneg sample_affine_above_tolerance).
Defined.

(** * Further properties of the header's functions *)

(** ** Shared lemmas *)

Lemma mkvec4_eq a b c d a' b' c' d' :
  a = a' -> b = b' -> c = c' -> d = d' -> mkvec4 a b c d = mkvec4 a' b' c' d'.
Proof. intros. subst. reflexivity. Qed.

Ltac unfold_more :=
  cbv [vec3_opp vec3_times vec3_recip vec3_zero vec3_ones axis_z
       last_column_unit upper_rows_diagonal] in *.

Lemma transpose_identity : transpose mat4_identity = mat4_identity.
Proof. reflexivity. Qed.

Lemma mul_vec_mul_lemma (mat1 mat2 : mat4) (vec : vec4) :
  mul_vec (mul mat1 mat2) vec = mul_vec mat1 (mul_vec mat2 vec).
Proof.
  destruct mat1, mat2, vec. unfold_code. apply mkvec4_eq; ring.
Qed.

(** A matrix has at most one inverse: a right inverse and a left inverse of
    the same matrix are the same matrix. *)
Lemma right_left_inverse_equal (a b c : mat4) :
  mul a b = mat4_identity -> mul c a = mat4_identity -> b = c.
Proof.
  intros Hab Hca.
  rewrite <- (mul_identity_l b), <- Hca, mul_assoc, Hab.
  apply mul_identity_r.
Qed.

Lemma inverse_both_sides (TOLERANCE : R) (mat : mat4) :
  0 <= TOLERANCE -> TOLERANCE < Rabs (determinant mat) ->
  mul mat (inverse TOLERANCE mat) = mat4_identity
  /\ mul (inverse TOLERANCE mat) mat = mat4_identity.
Proof.
  intros Htol Hlt.
  pose proof (above_tolerance_nonzero _ _ Htol Hlt) as Hdet.
  rewrite (inverse_main_branch _ _ Hlt). split.
  - apply mul_inverse_with, reciprocal_of_divisor, Hdet.
  - apply inverse_with_mul, reciprocal_of_divisor, Hdet.
Qed.

Lemma right_inverse_is_inverse (TOLERANCE : R) (mat other : mat4) :
  0 <= TOLERANCE -> TOLERANCE < Rabs (determinant mat) ->
  mul mat other = mat4_identity -> inverse TOLERANCE mat = other.
Proof.
  intros Htol Hlt Hright.
  destruct (inverse_both_sides _ _ Htol Hlt) as [_ Hleft].
  symmetry. apply (right_left_inverse_equal mat); assumption.
Qed.

Lemma left_inverse_is_inverse (TOLERANCE : R) (mat other : mat4) :
  0 <= TOLERANCE -> TOLERANCE < Rabs (determinant mat) ->
  mul other mat = mat4_identity -> inverse TOLERANCE mat = other.
Proof.
  intros Htol Hlt Hleft.
  destruct (inverse_both_sides _ _ Htol Hlt) as [Hright _].
  apply (right_left_inverse_equal mat); assumption.
Qed.

Lemma determinant_inverse_lemma (TOLERANCE : R) (mat : mat4) :
  0 <= TOLERANCE -> TOLERANCE < Rabs (determinant mat) ->
  determinant (inverse TOLERANCE mat) = 1 / determinant mat.
Proof.
  intros Htol Hlt.
  pose proof (above_tolerance_nonzero _ _ Htol Hlt) as Hdet.
  destruct (inverse_both_sides _ _ Htol Hlt) as [Hright _].
  apply (f_equal determinant) in Hright.
  rewrite determinant_mul, determinant_identity in Hright.
  apply (Rmult_eq_reg_l (determinant mat)); [| exact Hdet].
  rewrite Hright. field. exact Hdet.
Qed.

Lemma inverse_with_transpose (mat : mat4) (k : R) :
  inverse_with (transpose mat) k = transpose (inverse_with mat k).
Proof. destruct mat. by_entries; ring. Qed.

(** ** operator*(mat4, mat4) and the determinant *)

Lemma mul_from_any_buffer_witness :
  length (repeat 7 16) = 16%nat
  /\ mul_from (repeat 7 16) sample_counting sample_sparse
     = mul sample_counting sample_sparse.
Proof.
  split; [reflexivity |].
  apply (mul_from_any_buffer (repeat 7 16) sample_counting sample_sparse).
  reflexivity.
Defined.

(** X2.  The identity matrix is a unit of the product on both sides, and the
    product is associative. *)
Theorem mul_unit_and_assoc (mat1 mat2 mat3 : mat4) :
  mul mat1 mat4_identity = mat1
  /\ mul mat4_identity mat1 = mat1
  /\ mul (mul mat1 mat2) mat3 = mul mat1 (mul mat2 mat3).
Proof.
  split; [apply mul_identity_r |].
  split; [apply mul_identity_l | apply mul_assoc].
Qed.

(** X3.  The transpose of a product is the product of the transposes in the
    opposite order. *)
Theorem transpose_mul (mat1 mat2 : mat4) :
  transpose (mul mat1 mat2) = mul (transpose mat2) (transpose mat1).
Proof. destruct mat1, mat2. by_entries; ring. Qed.

(** X4.  The determinant of a product is the product of the determinants,
    and a matrix and its transpose have the same determinant. *)
Theorem determinant_product_and_transpose (mat1 mat2 : mat4) :
  determinant (mul mat1 mat2) = determinant mat1 * determinant mat2
  /\ determinant (transpose mat1) = determinant mat1.
Proof.
  split; [apply determinant_mul | apply determinant_transpose].
Qed.

(** ** operator*(mat4, vec4) *)

(** X5 (exact arithmetic).  Applying the identity matrix to a vector gives the vector, and
    applying a product applies the right factor first and the left factor to
    the result. *)
Theorem mul_vec_action (mat1 mat2 : mat4) (vec : vec4) :
  mul_vec mat4_identity vec = vec
  /\ mul_vec (mul mat1 mat2) vec = mul_vec mat1 (mul_vec mat2 vec).
Proof.
  split; [apply mul_vec_identity | apply mul_vec_mul_lemma].
Qed.

(** X6 (exact arithmetic).  [operator*(mat4, vec4)] takes the dot product of each row with the
    vector, so the translation that [translate] writes into row 3 does not
    reach the x, y, z of the result: they are those of the untranslated
    matrix, and only w gains the dot product of the translation with the
    x, y, z of the vector. *)
Theorem mul_vec_translate (mat : mat4) (t : vec3) (vec : vec4) :
  mul_vec (translate mat t) vec
  = mkvec4 (x4 (mul_vec mat vec)) (y4 (mul_vec mat vec)) (z4 (mul_vec mat vec))
           (w4 (mul_vec mat vec)
            + (x3 t * x4 vec + y3 t * y4 vec + z3 t * z4 vec)).
Proof.
  destruct mat, t, vec. unfold_code. apply mkvec4_eq; ring.
Qed.

(** X7.  It is the transpose of a translation matrix that moves a vector
    under [operator*(mat4, vec4)]: x, y, z gain the translation times w, so a
    point (w = 1) moves by the translation and a direction (w = 0) stays. *)
Theorem mul_vec_transpose_translate (t : vec3) (vec : vec4) :
  mul_vec (transpose (translate mat4_identity t)) vec
  = mkvec4 (x4 vec + x3 t * w4 vec) (y4 vec + y3 t * w4 vec)
           (z4 vec + z3 t * w4 vec) (w4 vec).
Proof.
  destruct t, vec. unfold_code. apply mkvec4_eq; ring.
Qed.

(** X8.  The scale of the identity matrix multiplies x, y and z of a vector
    by the three factors and leaves w. *)
Theorem mul_vec_scale (s : vec3) (vec : vec4) :
  mul_vec (scale mat4_identity s) vec
  = mkvec4 (x3 s * x4 vec) (y3 s * y4 vec) (z3 s * z4 vec) (w4 vec).
Proof.
  destruct s, vec. unfold_code. apply mkvec4_eq; ring.
Qed.

(** ** inverse *)

Lemma sample_affine_canBeInverse :
  canBeInverse sample_tolerance sample_affine = true.
Proof. apply canBeInverse_true, sample_affine_above_tolerance. Qed.

Lemma inverse_mul_witness :
  (0 <= sample_tolerance /\ canBeInverse sample_tolerance sample_affine = true)
  /\ mul (inverse sample_tolerance sample_affine) sample_affine = mat4_identity.
Proof.
  split;
    [split; [apply sample_tolerance_nonneg | apply sample_affine_canBeInverse] |].
  apply (inverse_mul sample_tolerance sample_affine
           sample_tolerance_nonneg sample_affine_canBeInverse).
Defined.

(** X10 (exact arithmetic).  The determinant of the inverse of a matrix that passes
    [canBeInverse] is the reciprocal of the determinant of the matrix. *)
Theorem determinant_inverse (TOLERANCE : R) (mat : mat4) :
  0 <= TOLERANCE ->
  canBeInverse TOLERANCE mat = true ->
  determinant (inverse TOLERANCE mat) = 1 / determinant mat
  /\ determinant mat * determinant (inverse TOLERANCE mat) = 1.
Proof.
  intros Htol Hcan. apply canBeInverse_true in Hcan.
  pose proof (above_tolerance_nonzero _ _ Htol Hcan) as Hdet.
  rewrite (determinant_inverse_lemma _ _ Htol Hcan).
  split; [reflexivity | field; exact Hdet].
Qed.

Lemma determinant_inverse_witness :
  (0 <= sample_tolerance /\ canBeInverse sample_tolerance sample_affine = true)
  /\ (determinant (inverse sample_tolerance sample_affine)
      = 1 / determinant sample_affine
      /\ determinant sample_affine
         * determinant (inverse sample_tolerance sample_affine) = 1).
Proof.
  split;
    [split; [apply sample_tolerance_nonneg | apply sample_affine_canBeInverse] |].
  apply (determinant_inverse sample_tolerance sample_affine
           sample_tolerance_nonneg sample_affine_canBeInverse).
Defined.

(** X11 (exact arithmetic).  When a matrix and its inverse both pass [canBeInverse], the
    inverse of the inverse is the matrix. *)
Theorem inverse_involutive (TOLERANCE : R) (mat : mat4) :
  0 <= TOLERANCE ->
  canBeInverse TOLERANCE mat = true ->
  canBeInverse TOLERANCE (inverse TOLERANCE mat) = true ->
  inverse TOLERANCE (inverse TOLERANCE mat) = mat.
Proof.
  intros Htol Hcan Hcan'.
  apply canBeInverse_true in Hcan. apply canBeInverse_true in Hcan'.
  destruct (inverse_both_sides _ _ Htol Hcan) as [Hright _].
  apply left_inverse_is_inverse; assumption.
Qed.

Lemma sample_affine_inverse_canBeInverse :
  canBeInverse sample_tolerance (inverse sample_tolerance sample_affine) = true.
Proof.
  apply canBeInverse_true.
  rewrite (determinant_inverse_lemma _ _ sample_tolerance_nonneg
             sample_affine_above_tolerance).
  rewrite determinant_sample_affine, Rabs_right by lra.
  unfold sample_tolerance. lra.
Qed.

Lemma inverse_involutive_witness :
  (0 <= sample_tolerance
   /\ canBeInverse sample_tolerance sample_affine = true
   /\ canBeInverse sample_tolerance (inverse sample_tolerance sample_affine)
      = true)
  /\ inverse sample_tolerance (inverse sample_tolerance sample_affine)
     = sample_affine.
Proof.
  split;
    [split; [apply sample_tolerance_nonneg |
             split; [apply sample_affine_canBeInverse
                    | apply sample_affine_inverse_canBeInverse]] |].
  apply (inverse_involutive sample_tolerance sample_affine
           sample_tolerance_nonneg sample_affine_canBeInverse
           sample_affine_inverse_canBeInverse).
Defined.

(** X12 (exact arithmetic).  For every tolerance and every matrix, [canBeInverse] gives the
    same answer on the matrix and on its transpose, and the inverse of the
    transpose is the transpose of the inverse (in the fallback branch too). *)
Theorem inverse_transpose (TOLERANCE : R) (mat : mat4) :
  canBeInverse TOLERANCE (transpose mat) = canBeInverse TOLERANCE mat
  /\ inverse TOLERANCE (transpose mat) = transpose (inverse TOLERANCE mat).
Proof.
  split.
  - unfold canBeInverse. rewrite determinant_transpose. reflexivity.
  - destruct (Rle_lt_dec (Rabs (determinant mat)) TOLERANCE) as [Hle | Hlt].
    + rewrite (inverse_fallback_branch _ mat Hle).
      rewrite inverse_fallback_branch
        by (rewrite determinant_transpose; exact Hle).
      reflexivity.
    + rewrite (inverse_main_branch _ mat Hlt).
      rewrite inverse_main_branch
        by (rewrite determinant_transpose; exact Hlt).
      rewrite !inverse_divisor_determinant, determinant_transpose.
      apply inverse_with_transpose.
Qed.

(** X13 (exact arithmetic).  For a matrix that passes [canBeInverse], applying the matrix and
    then its inverse to a vector, or the inverse and then the matrix, gives
    the vector back. *)
Theorem inverse_mul_vec (TOLERANCE : R) (mat : mat4) (vec : vec4) :
  0 <= TOLERANCE ->
  canBeInverse TOLERANCE mat = true ->
  mul_vec (inverse TOLERANCE mat) (mul_vec mat vec) = vec
  /\ mul_vec mat (mul_vec (inverse TOLERANCE mat) vec) = vec.
Proof.
  intros Htol Hcan. apply canBeInverse_true in Hcan.
  destruct (inverse_both_sides _ _ Htol Hcan) as [Hright Hleft].
  rewrite <- !mul_vec_mul_lemma, Hright, Hleft.
  split; apply mul_vec_identity.
Qed.

Lemma inverse_mul_vec_witness :
  (0 <= sample_tolerance /\ canBeInverse sample_tolerance sample_affine = true)
  /\ (mul_vec (inverse sample_tolerance sample_affine)
              (mul_vec sample_affine sample_point) = sample_point
      /\ mul_vec sample_affine
                 (mul_vec (inverse sample_tolerance sample_affine) sample_point)
         = sample_point).
Proof.
  split;
    [split; [apply sample_tolerance_nonneg | apply sample_affine_canBeInverse] |].
  apply (inverse_mul_vec sample_tolerance sample_affine sample_point
           sample_tolerance_nonneg sample_affine_canBeInverse).
Defined.

Lemma determinant_translate_identity (t : vec3) :
  determinant (translate mat4_identity t) = 1.
Proof. destruct t. unfold_code. ring. Qed.

Lemma determinant_scale_identity (s : vec3) :
  determinant (scale mat4_identity s) = x3 s * y3 s * z3 s.
Proof. destruct s. unfold_code. ring. Qed.

(** X14.  For a tolerance in [0, 1), the inverse of the translation by [t]
    is the translation by the opposite of [t]. *)
Theorem inverse_translate (TOLERANCE : R) (t : vec3) :
  0 <= TOLERANCE -> TOLERANCE < 1 ->
  inverse TOLERANCE (translate mat4_identity t)
  = translate mat4_identity (vec3_opp t).
Proof.
  intros Htol Hlt. apply right_inverse_is_inverse.
  - exact Htol.
  - rewrite determinant_translate_identity, Rabs_R1. exact Hlt.
  - destruct t. unfold_more. by_entries; ring.
Qed.

Lemma inverse_translate_witness :
  (0 <= sample_tolerance /\ sample_tolerance < 1)
  /\ inverse sample_tolerance (translate mat4_identity sample_translation)
     = translate mat4_identity (vec3_opp sample_translation).
Proof.
  assert (Hlt : sample_tolerance < 1) by (unfold sample_tolerance; lra).
  split; [split; [apply sample_tolerance_nonneg | exact Hlt] |].
  apply (inverse_translate sample_tolerance sample_translation
           sample_tolerance_nonneg Hlt).
Defined.

(** X15 (exact arithmetic).  When the product of the three factors is beyond the tolerance,
    the inverse of the scale by [s] is the scale by the reciprocals. *)
Theorem inverse_scale (TOLERANCE : R) (s : vec3) :
  0 <= TOLERANCE -> TOLERANCE < Rabs (x3 s * y3 s * z3 s) ->
  inverse TOLERANCE (scale mat4_identity s)
  = scale mat4_identity (vec3_recip s).
Proof.
  intros Htol Hlt.
  assert (Hprod : x3 s * y3 s * z3 s <> 0).
  { intros Hz. rewrite Hz, Rabs_R0 in Hlt. lra. }
  apply right_inverse_is_inverse.
  - exact Htol.
  - rewrite determinant_scale_identity. exact Hlt.
  - destruct s as [sx sy sz]. cbn [x3 y3 z3] in Hprod.
    assert (Hx : sx <> 0) by (intros ->; apply Hprod; ring).
    assert (Hy : sy <> 0) by (intros ->; apply Hprod; ring).
    assert (Hz : sz <> 0) by (intros ->; apply Hprod; ring).
    unfold_more. by_entries; field; assumption.
Qed.

Lemma sample_scale_above_tolerance :
  sample_tolerance
  < Rabs (x3 sample_scale * y3 sample_scale * z3 sample_scale).
Proof.
  unfold sample_scale, sample_tolerance. cbn [x3 y3 z3].
  rewrite Rabs_right; lra.
Qed.

Lemma inverse_scale_witness :
  (0 <= sample_tolerance
   /\ sample_tolerance
      < Rabs (x3 sample_scale * y3 sample_scale * z3 sample_scale))
  /\ inverse sample_tolerance (scale mat4_identity sample_scale)
     = scale mat4_identity (vec3_recip sample_scale).
Proof.
  split;
    [split; [apply sample_tolerance_nonneg | apply sample_scale_above_tolerance] |].
  apply (inverse_scale sample_tolerance sample_scale
           sample_tolerance_nonneg sample_scale_above_tolerance).
Defined.

(** X16 (exact arithmetic).  For a matrix that passes [canBeInverse], [inverse] returns the
    only inverse there is: every matrix that multiplies it to the identity,
    from the right or from the left, is the one [inverse] returns. *)
Theorem inverse_unique (TOLERANCE : R) (mat other : mat4) :
  0 <= TOLERANCE ->
  canBeInverse TOLERANCE mat = true ->
  mul mat other = mat4_identity \/ mul other mat = mat4_identity ->
  inverse TOLERANCE mat = other.
Proof.
  intros Htol Hcan Hinv. apply canBeInverse_true in Hcan.
  destruct Hinv as [Hright | Hleft].
  - apply right_inverse_is_inverse; assumption.
  - apply left_inverse_is_inverse; assumption.
Qed.

Lemma sample_affine_right_inverse :
  mul sample_affine
      (mat4_of_scalars (1 / 2) 0 0 0  0 1 0 0  0 0 1 0  (- (1 / 2)) (- 2) (- 3) 1)
  = mat4_identity.
Proof. unfold sample_affine. by_entries; field. Qed.

Lemma inverse_unique_witness :
  (0 <= sample_tolerance
   /\ canBeInverse sample_tolerance sample_affine = true
   /\ (mul sample_affine
         (mat4_of_scalars (1 / 2) 0 0 0  0 1 0 0  0 0 1 0
                          (- (1 / 2)) (- 2) (- 3) 1)
       = mat4_identity
       \/ mul (mat4_of_scalars (1 / 2) 0 0 0  0 1 0 0  0 0 1 0
                               (- (1 / 2)) (- 2) (- 3) 1)
              sample_affine
          = mat4_identity))
  /\ inverse sample_tolerance sample_affine
     = mat4_of_scalars (1 / 2) 0 0 0  0 1 0 0  0 0 1 0
                       (- (1 / 2)) (- 2) (- 3) 1.
Proof.
  split;
    [split; [apply sample_tolerance_nonneg |
             split; [apply sample_affine_canBeInverse
                    | left; apply sample_affine_right_inverse]] |].
  apply (inverse_unique sample_tolerance sample_affine _
           sample_tolerance_nonneg sample_affine_canBeInverse
           (or_introl sample_affine_right_inverse)).
Defined.

(** X17 (exact arithmetic).  When two matrices and their product all pass [canBeInverse], the
    inverse of the product is the product of the inverses in the opposite
    order. *)
Theorem inverse_product (TOLERANCE : R) (mat1 mat2 : mat4) :
  0 <= TOLERANCE ->
  canBeInverse TOLERANCE mat1 = true ->
  canBeInverse TOLERANCE mat2 = true ->
  canBeInverse TOLERANCE (mul mat1 mat2) = true ->
  inverse TOLERANCE (mul mat1 mat2)
  = mul (inverse TOLERANCE mat2) (inverse TOLERANCE mat1).
Proof.
  intros Htol Hcan1 Hcan2 Hcan12.
  apply canBeInverse_true in Hcan1.
  apply canBeInverse_true in Hcan2.
  apply canBeInverse_true in Hcan12.
  destruct (inverse_both_sides _ _ Htol Hcan1) as [Hright1 _].
  destruct (inverse_both_sides _ _ Htol Hcan2) as [Hright2 _].
  apply right_inverse_is_inverse; [exact Htol | exact Hcan12 |].
  rewrite mul_assoc, <- (mul_assoc mat2), Hright2, mul_identity_l.
  exact Hright1.
Qed.

Lemma sample_scaling_canBeInverse :
  canBeInverse sample_tolerance (scale mat4_identity sample_scale) = true.
Proof.
  apply canBeInverse_true. rewrite determinant_scale_identity.
  apply sample_scale_above_tolerance.
Qed.

Lemma sample_product_canBeInverse :
  canBeInverse sample_tolerance
    (mul sample_affine (scale mat4_identity sample_scale)) = true.
Proof.
  apply canBeInverse_true.
  rewrite determinant_mul, determinant_sample_affine,
    determinant_scale_identity.
  unfold sample_scale, sample_tolerance. cbn [x3 y3 z3].
  rewrite Rabs_right; lra.
Qed.

Lemma inverse_product_witness :
  (0 <= sample_tolerance
   /\ canBeInverse sample_tolerance sample_affine = true
   /\ canBeInverse sample_tolerance (scale mat4_identity sample_scale) = true
   /\ canBeInverse sample_tolerance
        (mul sample_affine (scale mat4_identity sample_scale)) = true)
  /\ inverse sample_tolerance
       (mul sample_affine (scale mat4_identity sample_scale))
     = mul (inverse sample_tolerance (scale mat4_identity sample_scale))
           (inverse sample_tolerance sample_affine).
Proof.
  split;
    [split; [apply sample_tolerance_nonneg |
             split; [apply sample_affine_canBeInverse |
                     split; [apply sample_scaling_canBeInverse
                            | apply sample_product_canBeInverse]]] |].
  apply (inverse_product sample_tolerance sample_affine
           (scale mat4_identity sample_scale)
           sample_tolerance_nonneg sample_affine_canBeInverse
           sample_scaling_canBeInverse sample_product_canBeInverse).
Defined.

(** ** translate and scale *)

(** X18.  Translating by the zero vector changes nothing, and translating by
    a vector and then by its opposite gives the matrix back. *)
Theorem translate_zero_and_back (mat : mat4) (t : vec3) :
  translate mat vec3_zero = mat
  /\ translate (translate mat t) (vec3_opp t) = mat.
Proof.
  destruct mat, t. unfold_more. split; by_entries; try reflexivity; ring.
Qed.

(** X19.  On a matrix whose last column is (0, 0, 0, 1), [translate] is the
    product with the translation matrix on the right: the translation is
    applied after the matrix, in the row-vector convention of the header. *)
Theorem translate_as_product (mat : mat4) (t : vec3) :
  last_column_unit mat ->
  translate mat t = mul mat (translate mat4_identity t).
Proof.
  destruct mat, t. unfold_more. unfold_code.
  intros (H03 & H13 & H23 & H33). subst.
  apply mkmat4_eq; ring.
Qed.

Lemma sample_affine_last_column : last_column_unit sample_affine.
Proof. repeat split. Qed.

Lemma translate_as_product_witness :
  last_column_unit sample_affine
  /\ translate sample_affine sample_translation
     = mul sample_affine (translate mat4_identity sample_translation).
Proof.
  split; [apply sample_affine_last_column |].
  apply (translate_as_product sample_affine sample_translation
           sample_affine_last_column).
Defined.

(** X20.  The builders that write different entries commute: a scale and
    a translation in either order give the same matrix, and so do a rotation
    and a translation. *)
Theorem builders_commute
  (mat : mat4) (s t : vec3) (angle : R) (axis : vec3) :
  translate (scale mat s) t = scale (translate mat t) s
  /\ translate (rotate mat angle axis) t = rotate (translate mat t) angle axis.
Proof. destruct mat. split; reflexivity. Qed.

(** X21 (exact arithmetic).  Scaling twice is scaling once by the products of the factors, and
    scaling by (1, 1, 1) changes nothing. *)
Theorem scale_scale_and_unit (mat : mat4) (s1 s2 : vec3) :
  scale (scale mat s1) s2 = scale mat (vec3_times s1 s2)
  /\ scale mat vec3_ones = mat.
Proof.
  destruct mat, s1, s2. unfold_more.
  split; by_entries; try reflexivity; ring.
Qed.




(** ** rotate *)

(** X23.  A rotation replaces the block that an earlier rotation or an
    earlier scale left in the matrix: the builders do not accumulate. *)
Theorem rotate_overwrites
  (mat : mat4) (angle1 angle2 : R) (axis1 axis2 s : vec3) :
  rotate (rotate mat angle1 axis1) angle2 axis2 = rotate mat angle2 axis2
  /\ rotate (scale mat s) angle2 axis2 = rotate mat angle2 axis2.
Proof. split; reflexivity. Qed.

(** X24.  The block that [rotate] builds is Rodrigues' matrix at all nine
    positions exactly when [axis.x * (1 - cos angle) * (axis.y - axis.z)]
    is zero. *)
Theorem rotate_rodrigues_iff (mat : mat4) (angle : R) (axis : vec3) :
  (forall i j, (i < 3)%nat -> (j < 3)%nat ->
     get (rotate mat angle axis) i j = rodrigues angle axis i j)
  <-> x3 axis * (1 - cos angle) * (y3 axis - z3 axis) = 0.
Proof.
  destruct (rotate_rodrigues_gap mat angle axis) as [Hxz Hzx].
  split.
  - intros Hall. rewrite <- Hxz, (Hall 0 2)%nat by lia. ring.
  - intros Hzero i j Hi Hj.
    destruct (Nat.eq_dec (i + j) 2) as [Hsum | Hsum].
    + index_cases i; index_cases j; try (exfalso; lia).
      * apply Rminus_diag_uniq. rewrite Hxz. exact Hzero.
      * apply rotate_rodrigues_elsewhere; lia.
      * apply Rminus_diag_uniq. rewrite Hzx. exact Hzero.
    + apply rotate_rodrigues_elsewhere; lia.
Qed.

(** X25.  A rotation of the identity matrix by the angle 0 is the identity
    matrix, whatever the axis. *)
Theorem rotate_zero (axis : vec3) :
  rotate mat4_identity 0 axis = mat4_identity.
Proof.
  destruct axis. unfold_code. rewrite cos_0, sin_0. apply mkmat4_eq; ring.
Qed.

(** X26.  Rotating the identity matrix by the opposite angle gives the
    transpose of the rotation by the angle. *)
Theorem rotate_opposite_angle (angle : R) (axis : vec3) :
  rotate mat4_identity (- angle) axis
  = transpose (rotate mat4_identity angle axis).
Proof.
  destruct axis. unfold_code. rewrite cos_neg, sin_neg.
  apply mkmat4_eq; ring.
Qed.

(** X27 (exact arithmetic).  About the z axis, the product of the rotations by two angles is
    the rotation by the sum of the angles. *)
Theorem rotate_z_compose (angle1 angle2 : R) :
  mul (rotate mat4_identity angle1 axis_z) (rotate mat4_identity angle2 axis_z)
  = rotate mat4_identity (angle1 + angle2) axis_z.
Proof.
  unfold_more. unfold_code. rewrite cos_plus, sin_plus.
  apply mkmat4_eq; ring.
Qed.

(** X28 (exact arithmetic).  Applied to a vector, the rotation about the z axis turns x and y
    by the angle and leaves z and w. *)
Theorem mul_vec_rotate_z (angle : R) (vec : vec4) :
  mul_vec (rotate mat4_identity angle axis_z) vec
  = mkvec4 (cos angle * x4 vec - sin angle * y4 vec)
           (sin angle * x4 vec + cos angle * y4 vec)
           (z4 vec) (w4 vec).
Proof.
  destruct vec. unfold_more. unfold_code. apply mkvec4_eq; ring.
Qed.

Lemma sin_cos_square (angle : R) :
  sin angle * sin angle + cos angle * cos angle = 1.
Proof. exact (sin2_cos2 angle). Qed.

(** Closes an equation between polynomials in [sin angle] and [cos angle],
    by [ring] or by [ring] up to [sin_cos_square]. *)
Ltac ring_trig angle :=
  first [ ring
        | etransitivity; [| apply (sin_cos_square angle)]; ring ].

Lemma determinant_rotate_z (angle : R) :
  determinant (rotate mat4_identity angle axis_z) = 1.
Proof. unfold_more. unfold_code. ring_trig angle. Qed.

Lemma rotate_z_right_inverse (angle : R) :
  mul (rotate mat4_identity angle axis_z) (rotate mat4_identity (- angle) axis_z)
  = mat4_identity.
Proof.
  unfold_more. unfold_code. rewrite cos_neg, sin_neg.
  apply mkmat4_eq; ring_trig angle.
Qed.

(** X29 (exact arithmetic).  The rotation about the z axis has determinant 1, and for a
    tolerance in [0, 1) its inverse is the rotation by the opposite angle. *)
Theorem rotate_z_inverse (TOLERANCE angle : R) :
  0 <= TOLERANCE -> TOLERANCE < 1 ->
  determinant (rotate mat4_identity angle axis_z) = 1
  /\ inverse TOLERANCE (rotate mat4_identity angle axis_z)
     = rotate mat4_identity (- angle) axis_z.
Proof.
  intros Htol Hlt. split; [apply determinant_rotate_z |].
  apply right_inverse_is_inverse.
  - exact Htol.
  - rewrite determinant_rotate_z, Rabs_R1. exact Hlt.
  - apply rotate_z_right_inverse.
Qed.

Lemma rotate_z_inverse_witness :
  (0 <= sample_tolerance /\ sample_tolerance < 1)
  /\ (determinant (rotate mat4_identity PI axis_z) = 1
      /\ inverse sample_tolerance (rotate mat4_identity PI axis_z)
         = rotate mat4_identity (- PI) axis_z).
Proof.
  assert (Hlt : sample_tolerance < 1) by (unfold sample_tolerance; lra).
  split; [split; [apply sample_tolerance_nonneg | exact Hlt] |].
  apply (rotate_z_inverse sample_tolerance PI sample_tolerance_nonneg Hlt).
Defined.

(** ** The fallback of inverse *)

(** X30.  For a matrix whose determinant is within a tolerance below 1, the
    product of the matrix with what [inverse] returns is the matrix itself
    and not the identity matrix: the fallback is not an inverse. *)
Theorem mul_inverse_singular (TOLERANCE : R) (mat : mat4) :
  Rabs (determinant mat) <= TOLERANCE -> TOLERANCE < 1 ->
  mul mat (inverse TOLERANCE mat) = mat
  /\ mul mat (inverse TOLERANCE mat) <> mat4_identity.
Proof.
  intros Hle Hlt.
  rewrite (inverse_fallback_branch _ _ Hle), mul_identity_r.
  split; [reflexivity |].
  intros Heq. rewrite Heq, determinant_identity, Rabs_R1 in Hle. lra.
Qed.

Lemma mul_inverse_singular_witness :
  (Rabs (determinant mat4_zero) <= sample_tolerance /\ sample_tolerance < 1)
  /\ (mul mat4_zero (inverse sample_tolerance mat4_zero) = mat4_zero
      /\ mul mat4_zero (inverse sample_tolerance mat4_zero) <> mat4_identity).
Proof.
  assert (Hlt : sample_tolerance < 1) by (unfold sample_tolerance; lra).
  split; [split; [apply sample_zero_within_tolerance | exact Hlt] |].
  apply (mul_inverse_singular sample_tolerance mat4_zero
           sample_zero_within_tolerance Hlt).
Defined.

(** * The code over binary32 *)

(** ** The model on plain inputs *)

(** Sums that fit in 24 bits are exact, and 2^24 + 1 rounds back to 2^24. *)
Lemma f32_add_examples :
  F32.add (F32.of_Z 3) (F32.of_Z 4) = F32.of_Z 7
  /\ F32.add (F32.of_Z 16777216) F32.one = F32.of_Z 16777216
  /\ F32.add (F32.of_Z 16777216) (F32.of_Z 2) = F32.of_Z 16777218.
Proof. repeat split. Qed.

(** Division by zero gives an infinity, and zero times an infinity a NaN. *)
Lemma f32_division_by_zero :
  F32.div F32.one F32.zero = S754_infinity false
  /\ F32.mult F32.zero (S754_infinity false) = S754_nan.
Proof. split; reflexivity. Qed.

(** On the identity matrix the float code agrees with the exact model, up
    to the sign of the two zeros that [inverse] negates. *)
Lemma f32_identity_matrix :
  F32.determinant F32.mat4_identity = F32.one
  /\ F32.mul F32.mat4_identity F32.mat4_identity = F32.mat4_identity
  /\ F32.inverse F32.sample_tolerance F32.mat4_identity
     = F32.mat4_of_scalars
         F32.one F32.zero F32.zero (S754_zero true)
         F32.zero F32.one F32.zero F32.zero
         F32.zero F32.zero F32.one (S754_zero true)
         F32.zero F32.zero F32.zero F32.one.
Proof. repeat split; vm_compute; reflexivity. Qed.

(** A NaN is within no tolerance of anything. *)
Lemma f32_nan_within (epsilon b : F32.float) :
  F32.within epsilon S754_nan b = false.
Proof. reflexivity. Qed.

(** ** translate *)


(** ** determinant, canBeInverse and inverse *)

(** The determinant of the cancelling sample is -1, in exact arithmetic and
    as [determinant()] computes it in floats, so the sample passes
    [canBeInverse] for every tolerance that 1 is not within. *)
Lemma determinant_sample_cancelling : determinant sample_cancelling = -1.
Proof. unfold sample_cancelling. unfold_code. ring. Qed.

Lemma f32_determinant_sample_cancelling :
  F32.determinant F32.sample_cancelling = F32.of_Z (-1).
Proof. vm_compute. reflexivity. Qed.

Lemma f32_abs_determinant_sample_cancelling :
  F32.abs (F32.determinant F32.sample_cancelling) = F32.one.
Proof. vm_compute. reflexivity. Qed.

Lemma f32_sample_cancelling_passes (tol : F32.float) :
  F32.fle F32.one tol = false ->
  F32.canBeInverse tol F32.sample_cancelling = true.
Proof.
  intros Htol. unfold F32.canBeInverse.
  rewrite f32_abs_determinant_sample_cancelling, Htol. reflexivity.
Qed.

(** The main branch of [inverse] on the sample: the partial sums of the
    divisor are 23660992 and -23660992 in floats, the divisor is 0, [invDet]
    is an infinity and the entries of the result are infinities and NaNs. *)
Lemma f32_inverse_sample_cancelling (tol : F32.float) :
  F32.fle F32.one tol = false ->
  F32.inverse tol F32.sample_cancelling
  = F32.mat4_of_scalars
      S754_nan (S754_infinity false) S754_nan (S754_infinity false)
      S754_nan S754_nan S754_nan S754_nan
      S754_nan S754_nan (S754_infinity true) (S754_infinity false)
      S754_nan S754_nan S754_nan S754_nan.
Proof.
  intros Htol. unfold F32.inverse.
  rewrite f32_abs_determinant_sample_cancelling, Htol.
  vm_compute. reflexivity.
Qed.

Lemma f32_sample_tolerance_below_one :
  F32.fle F32.zero F32.sample_tolerance = true
  /\ F32.fle F32.one F32.sample_tolerance = false.
Proof. split; reflexivity. Qed.

(** The first summand of the divisor, [dot(s, v)], on the columns and the
    bottom row of the sample: 23660991 in exact arithmetic, 23660992 once
    rounded to 24 bits. *)
Lemma f32_divisor_partial_sums :
  F32.dot (F32.cross (F32.mkvec3 (F32.of_Z (-10)) (F32.of_Z 56) (F32.of_Z (-27)))
                     (F32.mkvec3 (F32.of_Z (-33)) (F32.of_Z (-47)) (F32.of_Z (-16))))
          (F32.vec3_sub
             (F32.vec3_scale (F32.mkvec3 (F32.of_Z 22) (F32.of_Z (-49)) (F32.of_Z 36))
                             (F32.of_Z (-51)))
             (F32.vec3_scale (F32.mkvec3 (F32.of_Z 56) (F32.of_Z (-12)) (F32.of_Z (-64)))
                             (F32.of_Z 85)))
  = F32.of_Z 23660992.
Proof. vm_compute. reflexivity. Qed.

(** C9, on the float code.  The sample passes the guard of line 158 (its
    [determinant()] is -1, for every tolerance that 1 is not within, the
    sample tolerance among them), and the divisor of line 176 is zero: the
    division is a division by zero and [invDet] is an infinity. *)
Lemma f32_divisor_zero_past_guard :
  F32.determinant F32.sample_cancelling = F32.of_Z (-1)
  /\ F32.canBeInverse F32.sample_tolerance F32.sample_cancelling = true
  /\ (forall tol, F32.fle F32.one tol = false ->
                  F32.canBeInverse tol F32.sample_cancelling = true)
  /\ F32.inverse_divisor F32.sample_cancelling = F32.zero
  /\ F32.div F32.one (F32.inverse_divisor F32.sample_cancelling)
     = S754_infinity false
  /\ F32.get (F32.inverse F32.sample_tolerance F32.sample_cancelling) 0 1
     = S754_infinity false.
Proof.
  split; [apply f32_determinant_sample_cancelling |].
  split; [apply f32_sample_cancelling_passes; reflexivity |].
  split; [apply f32_sample_cancelling_passes |].
  split; [vm_compute; reflexivity |].
  split; [vm_compute; reflexivity |].
  rewrite f32_inverse_sample_cancelling by reflexivity. reflexivity.
Qed.

(** C2, on the float code.  The sample passes [canBeInverse], and every
    entry of the product of the sample with its [inverse] is a NaN: no
    entry is within any epsilon of the entry of the identity matrix. *)
Lemma f32_mul_inverse_not_identity :
  F32.canBeInverse F32.sample_tolerance F32.sample_cancelling = true
  /\ F32.mul F32.sample_cancelling
             (F32.inverse F32.sample_tolerance F32.sample_cancelling)
     = F32.mat4_of_scalars S754_nan S754_nan S754_nan S754_nan
                           S754_nan S754_nan S754_nan S754_nan
                           S754_nan S754_nan S754_nan S754_nan
                           S754_nan S754_nan S754_nan S754_nan
  /\ (forall epsilon i j, (i < 4)%nat -> (j < 4)%nat ->
        F32.within epsilon
          (F32.get (F32.mul F32.sample_cancelling
                      (F32.inverse F32.sample_tolerance F32.sample_cancelling))
                   i j)
          (F32.get F32.mat4_identity i j) = false).
Proof.
  assert (Hprod :
    F32.mul F32.sample_cancelling
            (F32.inverse F32.sample_tolerance F32.sample_cancelling)
    = F32.mat4_of_scalars S754_nan S754_nan S754_nan S754_nan
                          S754_nan S754_nan S754_nan S754_nan
                          S754_nan S754_nan S754_nan S754_nan
                          S754_nan S754_nan S754_nan S754_nan).
  { rewrite f32_inverse_sample_cancelling by reflexivity.
    vm_compute. reflexivity. }
  split; [apply f32_sample_cancelling_passes; reflexivity |].
  split; [exact Hprod |].
  intros epsilon i j Hi Hj. rewrite Hprod.
  index_cases i; index_cases j; apply f32_nan_within.
Qed.

(** ** The composition of translations, in both models *)

